(** * TickerAI: the tool-calling agent loop, its adapters and the ticker gate

    A shallow embedding of
      - [src/server/services/massive.ts]      (the market-data gateway),
      - [src/server/tools/*.ts]               (the three tool adapters),
      - [src/server/services/langchain-agent.ts] ([runStockAnalysis]),
      - [src/app/page.tsx]                    ([handleSubmit]'s ticker gate),
    followed by the properties the specification states about them.

    Conventions of the embedding.
      - An [async] function is a function in the monad [IO]: it threads the
        number of provider requests issued so far and ends either normally
        or by throwing.  Waiting ([setTimeout]) and logging are not
        observable here and are left out.
      - A JavaScript string is a [string] of characters of the ASCII range;
        the case mappings and the whitespace class are those of that
        range.  Outside it JavaScript maps and trims more (U+00DF goes to
        SS, U+00A0 is white space); a property that depends on it is
        stated for ASCII input ([Props.isAscii]).
      - Where only the flow of the data matters, a JavaScript number read
        from the provider is a rational [Q] (a finite value, no rounding),
        and a quotient may leave the finite range (division by zero),
        hence the type [number].  The values the arithmetic of the
        snapshot produces are computed in [Binary64], on IEEE 754 binary64
        numbers. *)

From Stdlib Require Import String Ascii List Bool Arith ZArith QArith Qminmax Lia.
From Stdlib Require Import DecimalString.
From Stdlib Require Floats Uint63.
Import ListNotations.

Open Scope nat_scope.
Open Scope list_scope.
Open Scope string_scope.

(* ===================================================================== *)
(** ** The JavaScript fragment the sources rely on                        *)
(* ===================================================================== *)

Module Js.

(** What a [catch (error)] clause may bind: an [Error] instance with its
    message, or some other thrown value. *)
Inductive Thrown : Type :=
| ErrorObj (message : string)
| NonError.

(** The two ways an evaluation ends. *)
Inductive Completion (A : Type) : Type :=
| Normal (a : A)
| Throw (e : Thrown).
Arguments Normal {A} a.
Arguments Throw {A} e.

(** [error instanceof Error ? error.message : fallback] *)
Definition messageOr (fallback : string) (error : Thrown) : string :=
  match error with
  | ErrorObj message => message
  | NonError => fallback
  end.

(** An awaited computation: the request counter goes in and comes out,
    also when the computation throws. *)
Definition IO (A : Type) : Type := nat -> Completion A * nat.

Definition ret {A} (a : A) : IO A := fun k => (Normal a, k).

Definition throw {A} (e : Thrown) : IO A := fun k => (Throw e, k).

Definition bind {A B} (m : IO A) (f : A -> IO B) : IO B :=
  fun k =>
    match m k with
    | (Normal a, k') => f a k'
    | (Throw e, k') => (Throw e, k')
    end.

(** [try { body } catch (error) { handler }] *)
Definition tryCatch {A} (body : IO A) (handler : Thrown -> IO A) : IO A :=
  fun k =>
    match body k with
    | (Normal a, k') => (Normal a, k')
    | (Throw e, k') => handler e k'
    end.

(** A synchronous step that may throw. *)
Definition lift {A} (c : Completion A) : IO A := fun k => (c, k).

(** *** Strings *)

Definition isLower (ch : ascii) : bool :=
  (97 <=? nat_of_ascii ch)%nat && (nat_of_ascii ch <=? 122)%nat.

Definition isUpper (ch : ascii) : bool :=
  (65 <=? nat_of_ascii ch)%nat && (nat_of_ascii ch <=? 90)%nat.

Definition upperChar (ch : ascii) : ascii :=
  if isLower ch then ascii_of_nat (nat_of_ascii ch - 32) else ch.

(** [s.toUpperCase()], on characters of the ASCII range. *)
Fixpoint toUpperCase (s : string) : string :=
  match s with
  | EmptyString => EmptyString
  | String ch rest => String (upperChar ch) (toUpperCase rest)
  end.

(** White space and line terminators of the ASCII range:
    TAB, LF, VT, FF, CR and SPACE. *)
Definition isWhiteSpace (ch : ascii) : bool :=
  let n := nat_of_ascii ch in
  ((9 <=? n)%nat && (n <=? 13)%nat) || (n =? 32)%nat.

Fixpoint trimStart (s : string) : string :=
  match s with
  | EmptyString => EmptyString
  | String ch rest => if isWhiteSpace ch then trimStart rest else s
  end.

Fixpoint trimEnd (s : string) : string :=
  match s with
  | EmptyString => EmptyString
  | String ch rest =>
      match trimEnd rest with
      | EmptyString => if isWhiteSpace ch then EmptyString else String ch EmptyString
      | kept => String ch kept
      end
  end.

(** [s.trim()], on characters of the ASCII range. *)
Definition trim (s : string) : string := trimEnd (trimStart s).

(** [!s] for a string: only the empty string is falsy. *)
Definition falsyString (s : string) : bool :=
  match s with
  | EmptyString => true
  | _ => false
  end.

(** [!x] for an optional string ([undefined] or a string). *)
Definition falsyOptString (x : option string) : bool :=
  match x with
  | None => true
  | Some s => falsyString s
  end.

(** [`${n}`] for a natural number. *)
Definition showNat (n : nat) : string := NilEmpty.string_of_uint (Nat.to_uint n).

(** *** Numbers *)

(** The value of an arithmetic expression: a finite rational, or a value
    outside the finite range (NaN or an infinity). *)
Inductive number : Type :=
| Num (q : Q)
| NonFinite.

(** [a / b] on finite operands. *)
Definition div (a b : Q) : number :=
  if Qeq_bool b 0 then NonFinite else Num (a / b).

(** [x * k] where [k] is a finite, non-zero literal. *)
Definition scale (x : number) (k : Q) : number :=
  match x with
  | Num q => Num (q * k)
  | NonFinite => NonFinite
  end.

(** [Math.max(...xs)] and [Math.min(...xs)]; on no argument they are
    [-Infinity] and [Infinity]. *)
Definition Math_max (xs : list Q) : number :=
  match xs with
  | [] => NonFinite
  | x :: rest => Num (fold_left Qmax rest x)
  end.

Definition Math_min (xs : list Q) : number :=
  match xs with
  | [] => NonFinite
  | x :: rest => Num (fold_left Qmin rest x)
  end.

(** [xs[i]] for a possibly negative index. *)
Definition index {A} (xs : list A) (i : Z) : option A :=
  if (i <? 0)%Z then None else nth_error xs (Z.to_nat i).

(** [xs.length] as an integer. *)
Definition len {A} (xs : list A) : Z := Z.of_nat (length xs).

(** [v || null] for a number: zero is falsy. *)
Definition orNull (v : option Q) : option Q :=
  match v with
  | Some q => if Qeq_bool q 0 then None else Some q
  | None => None
  end.

(** *** Values handed to [JSON.stringify] *)

#[local] Unset Elimination Schemes.
Inductive json : Type :=
| JUndefined
| JNull
| JBool (b : bool)
| JNumber (n : number)
| JString (s : string)
| JArray (items : list json)
| JObject (fields : list (string * json)).
#[local] Set Elimination Schemes.

Definition jnum (q : Q) : json := JNumber (Num q).

Definition jopt {A} (f : A -> json) (x : option A) : json :=
  match x with
  | Some a => f a
  | None => JUndefined
  end.

Definition jnullable {A} (f : A -> json) (x : option A) : json :=
  match x with
  | Some a => f a
  | None => JNull
  end.

End Js.

Import Js.

Declare Scope io_scope.
Delimit Scope io_scope with io.
Notation "x <- m ;; k" := (bind m (fun x => k))
  (at level 61, m at next level, right associativity) : io_scope.
Open Scope io_scope.

(* ===================================================================== *)
(** ** The market-data gateway ([MassiveService])                         *)
(* ===================================================================== *)

Module Massive.

Record StockAggregate : Type := {
  agg_v : Q;   (* volume *)
  agg_vw : Q;  (* volume weighted average price *)
  agg_o : Q;   (* open *)
  agg_c : Q;   (* close *)
  agg_h : Q;   (* high *)
  agg_l : Q;   (* low *)
  agg_t : Q;   (* timestamp (ms) *)
  agg_n : Q    (* number of transactions *)
}.

Record Branding : Type := {
  logo_url : option string;
  icon_url : option string
}.

Record TickerDetails : Type := {
  td_ticker : string;
  td_name : string;
  td_market : string;
  td_locale : string;
  td_primary_exchange : string;
  td_type : string;
  td_active : bool;
  td_currency_name : string;
  td_description : option string;
  td_market_cap : option Q;
  td_total_employees : option Q;
  td_list_date : option string;
  td_branding : option Branding
}.

Record Publisher : Type := {
  pub_name : string;
  pub_homepage_url : option string;
  pub_logo_url : option string;
  pub_favicon_url : option string
}.

Record Insight : Type := {
  ins_ticker : string;
  ins_sentiment : string;
  ins_sentiment_reasoning : string
}.

Record NewsArticle : Type := {
  na_id : string;
  na_publisher : Publisher;
  na_title : string;
  na_author : option string;
  na_published_utc : string;
  na_article_url : string;
  na_tickers : list string;
  na_amp_url : option string;
  na_image_url : option string;
  na_description : option string;
  na_keywords : option (list string);
  na_insights : option (list Insight)
}.

Record IndicatorValue : Type := {
  iv_timestamp : Q;
  iv_value : Q
}.

Inductive Order : Type := asc | desc.

(** An HTTP response as [fetchAPI] reads it: the status line and the two
    ways of reading the body, each of which may throw. *)
Record Response (T : Type) : Type := {
  status : nat;
  statusText : string;
  text : Completion string;
  json_body : Completion T
}.
Arguments status {T} r.
Arguments statusText {T} r.
Arguments text {T} r.
Arguments json_body {T} r.

(** What [fetch] does with a request: it rejects, or it resolves to a
    response. *)
Inductive Fetched (T : Type) : Type :=
| Rejected (e : Thrown)
| Responded (r : Response T).
Arguments Rejected {T} e.
Arguments Responded {T} r.

(** [response.ok]: the status is in the range 200-299. *)
Definition ok {T} (r : Response T) : bool :=
  (200 <=? status r)%nat && (status r <=? 299)%nat.

(** The environment of a run: the configuration, the host functions whose
    output the sources only pass on, and the provider.  A provider
    endpoint is a function of the number of requests issued before it and
    of the request, so it may answer differently every time.  The decoded
    body has the type the gateway casts it to; [None] is a missing
    [results] field. *)
Record World : Type := {
  MASSIVE_API_KEY : option string;
  JSON_stringify : json -> string;              (* JSON.stringify(v, null, 2) *)
  toISOString_now : nat -> string;              (* new Date().toISOString() *)
  toLocaleDateString : string -> string;        (* new Date(s).toLocaleDateString() *)
  aggs_range : nat -> string -> Q -> Fetched (option (list StockAggregate));
  reference_tickers : nat -> string -> Fetched (option TickerDetails);
  reference_news : nat -> string -> Q -> Order -> Fetched (option (list NewsArticle));
  aggs_prev : nat -> string -> Fetched (option (list StockAggregate));
  indicators_rsi : nat -> string -> Q -> Q -> Fetched (option (option (list IndicatorValue)));
  indicators_sma : nat -> string -> Q -> Q -> Fetched (option (option (list IndicatorValue)))
}.

Section Service.

Variable w : World.

(** [constructor()] *)
Definition constructor : Completion unit :=
  if falsyOptString (MASSIVE_API_KEY w)
  then Throw (ErrorObj "MASSIVE_API_KEY is not configured in environment variables")
  else Normal tt.

(** [fetchAPI<T>(endpoint)]: one outbound request. *)
Definition fetchAPI {T} (endpoint : nat -> Fetched T) : IO T :=
  fun k =>
    (match endpoint k with
     | Rejected e => Throw e
     | Responded response =>
         if negb (ok response) then
           match text response with
           | Normal _ =>
               Throw (ErrorObj ("Massive API failed: " ++ showNat (status response)
                                ++ " " ++ statusText response))
           | Throw e => Throw e
           end
         else json_body response
     end, S k).

Definition getStockAggregates (ticker : string) (days : Q) : IO (list StockAggregate) :=
  data <- fetchAPI (fun k => aggs_range w k ticker days) ;;
  match data with
  | None | Some [] => throw (ErrorObj ("No stock data available for " ++ ticker))
  | Some results => ret results
  end.

Definition getTickerDetails (ticker : string) : IO (option TickerDetails) :=
  tryCatch
    (data <- fetchAPI (fun k => reference_tickers w k ticker) ;;
     ret data)
    (fun _ => ret None).

Definition getNews (ticker : string) (limit : Q) (order : Order) : IO (list NewsArticle) :=
  tryCatch
    (data <- fetchAPI (fun k => reference_news w k ticker limit order) ;;
     ret (match data with Some results => results | None => [] end))
    (fun _ => ret []).

Definition getPreviousClose (ticker : string) : IO (option StockAggregate) :=
  tryCatch
    (data <- fetchAPI (fun k => aggs_prev w k ticker) ;;
     ret (match data with Some results => index results 0 | None => None end))
    (fun _ => ret None).

Definition indicatorValues (data : option (option (list IndicatorValue)))
  : list IndicatorValue :=
  match data with
  | Some (Some values) => values
  | _ => []
  end.

Definition getRSI (ticker : string) (window limit : Q) : IO (list IndicatorValue) :=
  tryCatch
    (data <- fetchAPI (fun k => indicators_rsi w k ticker window limit) ;;
     ret (indicatorValues data))
    (fun _ => ret []).

Definition getSMA (ticker : string) (window limit : Q) : IO (list IndicatorValue) :=
  tryCatch
    (data <- fetchAPI (fun k => indicators_sma w k ticker window limit) ;;
     ret (indicatorValues data))
    (fun _ => ret []).

End Service.

End Massive.

Import Massive.

(* ===================================================================== *)
(** ** The tool adapters                                                  *)
(* ===================================================================== *)

Module Tools.

(** The argument payload of a tool call, typed as the adapters' schemas
    declare it: [{ ticker: string, limit?: number }]. *)
Record Args : Type := {
  arg_ticker : string;
  arg_limit : option Q
}.

(** A [DynamicStructuredTool], reduced to what the agent loop reads. *)
Record Tool : Type := {
  tool_name : string;
  tool_func : Args -> IO string
}.

(** The record [calculateStockMetrics] returns. *)
Record StockMetrics : Type := {
  currentPrice : Q;
  previousClose : Q;
  change : Q;
  changePercent : number;
  dayHigh : Q;
  dayLow : Q;
  volume : Q;
  avgVolume : number;
  rsi : option Q;
  sma10 : option Q;
  sma20 : option Q;
  priceRangeHigh : number;
  priceRangeLow : number
}.

(** [data[0]?.value || null] *)
Definition firstValue (data : list IndicatorValue) : option Q :=
  orNull (option_map iv_value (index data 0)).

Section Adapters.

Variable w : World.

Definition calculateStockMetrics (ticker : string) (aggregates : list StockAggregate)
  : IO StockMetrics :=
  let closes := map agg_c aggregates in
  let volumes := map agg_v aggregates in
  let latest := index aggregates (len aggregates - 1) in
  let previous := index aggregates (len aggregates - 2) in
  rsiData <- getRSI w ticker 14 1 ;;
  sma10Data <- getSMA w ticker 10 1 ;;
  sma20Data <- getSMA w ticker 20 1 ;;
  match latest with
  | None => throw (ErrorObj "Cannot read properties of undefined (reading 'c')")
  | Some latest =>
      ret {|
        currentPrice := agg_c latest;
        previousClose :=
          match previous with Some previous => agg_c previous | None => agg_c latest end;
        change :=
          (agg_c latest
           - match previous with Some previous => agg_c previous | None => agg_c latest end)%Q;
        changePercent :=
          match previous with
          | Some previous =>
              scale (div (agg_c latest - agg_c previous)%Q (agg_c previous)) 100
          | None => Num 0%Q
          end;
        dayHigh := agg_h latest;
        dayLow := agg_l latest;
        volume := agg_v latest;
        avgVolume := div (fold_left Qplus volumes 0%Q) (inject_Z (len volumes));
        rsi := firstValue rsiData;
        sma10 := firstValue sma10Data;
        sma20 := firstValue sma20Data;
        priceRangeHigh := Math_max closes;
        priceRangeLow := Math_min closes
      |}
  end.

(** The object [{ ticker, ...stockData, timestamp }]. *)
Definition stockDataObject (ticker : string) (m : StockMetrics) (timestamp : string) : json :=
  JObject [
    ("ticker", JString ticker);
    ("currentPrice", jnum (currentPrice m));
    ("previousClose", jnum (previousClose m));
    ("change", jnum (change m));
    ("changePercent", JNumber (changePercent m));
    ("dayHigh", jnum (dayHigh m));
    ("dayLow", jnum (dayLow m));
    ("volume", jnum (volume m));
    ("avgVolume", JNumber (avgVolume m));
    ("rsi", jnullable jnum (rsi m));
    ("sma10", jnullable jnum (sma10 m));
    ("sma20", jnullable jnum (sma20 m));
    ("priceRangeHigh", JNumber (priceRangeHigh m));
    ("priceRangeLow", JNumber (priceRangeLow m));
    ("timestamp", JString timestamp)
  ].

(** [new Date().toISOString()] *)
Definition nowISO : IO string := fun k => (Normal (toISOString_now w k), k).

(** [createStockDataTool().func] *)
Definition stockDataFunc (args : Args) : IO string :=
  let ticker := arg_ticker args in
  tryCatch
    (aggregates <- getStockAggregates w (toUpperCase ticker) 30 ;;
     stockData <- calculateStockMetrics (toUpperCase ticker) aggregates ;;
     timestamp <- nowISO ;;
     ret (JSON_stringify w (stockDataObject (toUpperCase ticker) stockData timestamp)))
    (fun error =>
       ret ("Error fetching stock data for " ++ ticker ++ ": "
            ++ messageOr "Unknown error" error)).

Definition createStockDataTool : Completion Tool :=
  match constructor w with
  | Throw e => Throw e
  | Normal _ => Normal {| tool_name := "get_stock_data"; tool_func := stockDataFunc |}
  end.

(** [s || fallback] for an optional string: a missing and an empty string
    are both falsy. *)
Definition orString (s : option string) (fallback : string) : string :=
  match s with
  | Some v => if falsyString v then fallback else v
  | None => fallback
  end.

(** [article.insights?.[0]?.sentiment || "neutral"] *)
Definition sentimentOf (article : NewsArticle) : string :=
  orString
    (match na_insights article with
     | Some insights => option_map ins_sentiment (index insights 0)
     | None => None
     end)
    "neutral".

(** [news.map((article, index) => ({ ... }))], from position [i] on. *)
Fixpoint formatNews (i : nat) (news : list NewsArticle) : list json :=
  match news with
  | [] => []
  | article :: rest =>
      JObject [
        ("number", jnum (inject_Z (Z.of_nat i + 1)));
        ("title", JString (na_title article));
        ("publisher", JString (pub_name (na_publisher article)));
        ("published", JString (toLocaleDateString w (na_published_utc article)));
        ("description", JString (orString (na_description article) "No description avaliable."));
        ("sentiment", JString (sentimentOf article));
        ("url", JString (na_article_url article))
      ] :: formatNews (S i) rest
  end.

(** [createNewsDataTool().func]; the parameter [limit] defaults to 5. *)
Definition newsFunc (args : Args) : IO string :=
  let ticker := arg_ticker args in
  let limit := match arg_limit args with Some limit => limit | None => 5%Q end in
  tryCatch
    (news <- getNews w (toUpperCase ticker) limit desc ;;
     if (len news =? 0)%Z then ret ("No recent news for " ++ ticker)
     else
       let formattedNews := formatNews 0 news in
       ret (JSON_stringify w (JObject [
              ("ticker", JString (toUpperCase ticker));
              ("newsCount", jnum (inject_Z (len formattedNews)));
              ("articles", JArray formattedNews)
            ])))
    (fun error =>
       ret ("Error fetching news for " ++ ticker ++ ": "
            ++ messageOr "Unknown error" error)).

Definition createNewsDataTool : Completion Tool :=
  match constructor w with
  | Throw e => Throw e
  | Normal _ => Normal {| tool_name := "get_stock_news"; tool_func := newsFunc |}
  end.

(** [createCompanyDetailsTool().func] *)
Definition companyDetailsFunc (args : Args) : IO string :=
  let ticker := arg_ticker args in
  tryCatch
    (details <- getTickerDetails w (toUpperCase ticker) ;;
     match details with
     | None => ret ("No company details found for " ++ ticker)
     | Some details =>
         ret (JSON_stringify w (JObject [
                ("ticker", JString (td_ticker details));
                ("name", JString (td_name details));
                ("description",
                  JString (orString (td_description details) "No description available"));
                ("market", JString (td_market details));
                ("primaryExchange", JString (td_primary_exchange details));
                ("type", JString (td_type details));
                ("active", JBool (td_active details));
                ("marketCap", jopt jnum (td_market_cap details));
                ("totalEmployees", jopt jnum (td_total_employees details));
                ("listDate", jopt JString (td_list_date details));
                ("currency", JString (td_currency_name details))
              ]))
     end)
    (fun error =>
       ret ("Error fetching company details for " ++ ticker ++ ": "
            ++ messageOr "Unknown error" error)).

Definition createCompanyDetailsTool : Completion Tool :=
  match constructor w with
  | Throw e => Throw e
  | Normal _ => Normal {| tool_name := "get_company_details"; tool_func := companyDetailsFunc |}
  end.

End Adapters.

End Tools.

Import Tools.

(* ===================================================================== *)
(** ** The agent loop ([runStockAnalysis])                                *)
(* ===================================================================== *)

Module Agent.

(** One requested tool invocation of a model response. *)
Record ToolCall : Type := {
  tc_name : string;
  tc_id : option string;
  tc_args : Args
}.

(** What [modelWithTools.invoke] resolves to. *)
Record AIResponse : Type := {
  resp_content : string;
  resp_tool_calls : option (list ToolCall)
}.

Inductive Message : Type :=
| SystemMessage (content : string)
| HumanMessage (content : string)
| AIMessage (content : string) (tool_calls : list ToolCall)
| ToolMessage (content : string) (tool_call_id : string).

(** An entry of [chatHistory]. *)
Record ChatTurn : Type := {
  role : string;
  turn_content : string
}.

(** The state in which a run ends: how it completed, the [messages] array,
    the counter [iterations] (the number of model invocations) and the
    number of provider requests issued. *)
Record Run : Type := {
  result : Completion string;
  messages : list Message;
  iterations : nat;
  requests : nat
}.

Definition maxIterations : nat := 5.

(** [response.tool_calls || []] *)
Definition toolCallsOf (response : AIResponse) : list ToolCall :=
  match resp_tool_calls response with
  | Some toolCalls => toolCalls
  | None => []
  end.

(** [tools.find((t) => t.name === toolCall.name)] *)
Definition findTool (tools : list Tool) (toolCall : ToolCall) : option Tool :=
  find (fun t => tool_name t =? tc_name toolCall) tools.

(** The body of [for (const toolCall of toolCalls)]: the array [messages]
    after the loop, and the request counter. *)
Fixpoint executeToolCalls (tools : list Tool) (toolCalls : list ToolCall)
    (messages : list Message) (k : nat) : list Message * nat :=
  match toolCalls with
  | [] => (messages, k)
  | toolCall :: rest =>
      match findTool tools toolCall with
      | None => executeToolCalls tools rest messages k
      | Some tool =>
          match tc_id toolCall with
          | None | Some EmptyString => executeToolCalls tools rest messages k
          | Some id =>
              match tool_func tool (tc_args toolCall) k with
              | (Normal result, k') =>
                  executeToolCalls tools rest
                    (messages ++ [ToolMessage result id])%list k'
              | (Throw error, k') =>
                  executeToolCalls tools rest
                    (messages ++ [ToolMessage ("Error: " ++ messageOr "Unknown" error) id])%list
                    k'
              end
          end
      end
  end.

Section Loop.

(** The language model bound to the tools: what its invocation number
    [i] (counted from 0) does on a message sequence. *)
Variable llm : nat -> list Message -> Completion AIResponse.

(** [while (iterations < maxIterations) { ... } throw ...], with
    [remaining = maxIterations - iterations] as the structural argument. *)
Fixpoint whileLoop (tools : list Tool) (remaining iterations : nat)
    (messages : list Message) (k : nat) : Run :=
  match remaining with
  | 0 =>
      {| result := Throw (ErrorObj "Max iterations reached");
         messages := messages; iterations := iterations; requests := k |}
  | S remaining' =>
      match llm iterations messages with
      | Throw e =>
          {| result := Throw e;
             messages := messages; iterations := S iterations; requests := k |}
      | Normal response =>
          let toolCalls := toolCallsOf response in
          if (length toolCalls =? 0)%nat then
            {| result := Normal (resp_content response);
               messages := messages; iterations := S iterations; requests := k |}
          else
            let messages := (messages ++ [AIMessage (resp_content response) toolCalls])%list in
            let (messages, k) := executeToolCalls tools toolCalls messages k in
            whileLoop tools remaining' (S iterations) messages k
      end
  end.

(** [catch (error) { throw new Error(`Failed to analyze: ...`) }] *)
Definition rethrow (r : Completion string) : Completion string :=
  match r with
  | Normal answer => Normal answer
  | Throw error => Throw (ErrorObj ("Failed to analyze: " ++ messageOr "Unknown error" error))
  end.

(** The [try { ... } catch] block of [runStockAnalysis]. *)
Definition agentLoop (tools : list Tool) (messages : list Message) (k : nat) : Run :=
  let r := whileLoop tools maxIterations 0 messages k in
  {| result := rethrow (result r);
     messages := Agent.messages r; iterations := iterations r; requests := requests r |}.

Definition historyMessage (msg : ChatTurn) : Message :=
  if role msg =? "user" then HumanMessage (turn_content msg)
  else AIMessage (turn_content msg) [].

Variable w : World.

(** The instruction text handed to the model first (the constant
    [SYSTEM_PROMPT]). *)
Variable SYSTEM_PROMPT : string.

Definition initialMessages (input : string) (chatHistory : list ChatTurn) : list Message :=
  ([SystemMessage SYSTEM_PROMPT] ++ map historyMessage chatHistory ++ [HumanMessage input])%list.

Definition failedBeforeLoop (e : Thrown) (k : nat) : Run :=
  {| result := Throw e; messages := []; iterations := 0; requests := k |}.

Definition runStockAnalysis (input : string) (chatHistory : list ChatTurn) (k : nat) : Run :=
  match createStockDataTool w with
  | Throw e => failedBeforeLoop e k
  | Normal stockDataTool =>
      match createNewsDataTool w with
      | Throw e => failedBeforeLoop e k
      | Normal newsDataTool =>
          match createCompanyDetailsTool w with
          | Throw e => failedBeforeLoop e k
          | Normal companyDetailsTool =>
              agentLoop [stockDataTool; newsDataTool; companyDetailsTool]
                (initialMessages input chatHistory) k
          end
      end
  end.

End Loop.

End Agent.

Import Agent.

(* ===================================================================== *)
(** ** The ticker gate of the page ([handleSubmit])                       *)
(* ===================================================================== *)

Module Page.

(** Regular expressions, as far as [tickerRegex] needs them. *)
Inductive regex : Type :=
| Never
| Empty
| Class (p : ascii -> bool)
| Seq (r1 r2 : regex)
| Alt (r1 r2 : regex).

(** [r?] *)
Definition Opt (r : regex) : regex := Alt r Empty.

Fixpoint exactly (n : nat) (r : regex) : regex :=
  match n with
  | 0 => Empty
  | S n' => Seq r (exactly n' r)
  end.

Fixpoint atMost (n : nat) (r : regex) : regex :=
  match n with
  | 0 => Empty
  | S n' => Opt (Seq r (atMost n' r))
  end.

(** [r{lo,hi}] *)
Definition Repeat (lo hi : nat) (r : regex) : regex :=
  Seq (exactly lo r) (atMost (hi - lo) r).

Fixpoint nullable (r : regex) : bool :=
  match r with
  | Never => false
  | Empty => true
  | Class _ => false
  | Seq r1 r2 => nullable r1 && nullable r2
  | Alt r1 r2 => nullable r1 || nullable r2
  end.

(** The residual of [r] after the character [ch]. *)
Fixpoint deriv (ch : ascii) (r : regex) : regex :=
  match r with
  | Never => Never
  | Empty => Never
  | Class p => if p ch then Empty else Never
  | Seq r1 r2 =>
      if nullable r1 then Alt (Seq (deriv ch r1) r2) (deriv ch r2)
      else Seq (deriv ch r1) r2
  | Alt r1 r2 => Alt (deriv ch r1) (deriv ch r2)
  end.

(** [/^r$/.test(s)]: without flags the anchors are the two ends of [s]. *)
Fixpoint test (r : regex) (s : string) : bool :=
  match s with
  | EmptyString => nullable r
  | String ch rest => test (deriv ch r) rest
  end.

Definition isDotOrDash (ch : ascii) : bool :=
  (ch =? ".")%char || (ch =? "-")%char.

(** [/^[A-Z]{1,6}([.-][A-Z])?$/] *)
Definition tickerRegex : regex :=
  Seq (Repeat 1 6 (Class isUpper)) (Opt (Seq (Class isDotOrDash) (Class isUpper))).

(** What [handleSubmit] does with the input of a first submission
    ([analysisPerformed] is false). *)
Inductive Gate : Type :=
| Ignored                       (* blank input: return at once *)
| InvalidFormat                 (* the format error message is shown *)
| Validate (ticker : string).   (* go on to /api/validate-ticker, then analyze *)

Definition handleSubmit (input : string) : Gate :=
  if falsyString (trim input) then Ignored
  else
    let ticker := toUpperCase (trim input) in
    if negb (test tickerRegex ticker) then InvalidFormat
    else Validate ticker.

End Page.

Import Page.

(* ===================================================================== *)
(** ** Vocabulary of the specification                                    *)
(* ===================================================================== *)

Module Spec.

(** The call identifiers an Assistant message requests, in order. *)
Definition idsOfCalls (toolCalls : list ToolCall) : list string :=
  flat_map (fun toolCall => match tc_id toolCall with Some id => [id] | None => [] end)
           toolCalls.

(** The call identifiers requested by the Assistant messages of a
    sequence, in order. *)
Definition requestedIds (ms : list Message) : list string :=
  flat_map (fun m => match m with AIMessage _ toolCalls => idsOfCalls toolCalls | _ => [] end)
           ms.

(** The call identifiers the ToolResult messages of a sequence carry, in
    order. *)
Definition toolResultIds (ms : list Message) : list string :=
  flat_map (fun m => match m with ToolMessage _ id => [id] | _ => [] end) ms.

Definition isToolResult (m : Message) : Prop :=
  match m with
  | ToolMessage _ _ => True
  | _ => False
  end.

(** A requested invocation is answered when it names a registered adapter
    and carries a call identifier. *)
Definition answerable (tools : list Tool) (toolCall : ToolCall) : bool :=
  match findTool tools toolCall with
  | Some _ => negb (falsyOptString (tc_id toolCall))
  | None => false
  end.

(** The identifiers of the answerable invocations, in request order. *)
Definition answeredIds (tools : list Tool) (toolCalls : list ToolCall) : list string :=
  idsOfCalls (filter (answerable tools) toolCalls).

(** One pass through ExecutingTools, as it shows in the message sequence:
    the Assistant message and the ToolResult messages that follow it. *)
Record Turn : Type := {
  turn_text : string;
  turn_calls : list ToolCall;
  turn_results : list Message
}.

Definition segment (t : Turn) : list Message :=
  AIMessage (turn_text t) (turn_calls t) :: turn_results t.

(** A turn that the loop produced: its Assistant message is a response of
    the model, and its ToolResult messages answer the answerable
    invocations of that response, in request order. *)
Definition producedTurn (llm : nat -> list Message -> Completion AIResponse)
    (tools : list Tool) (t : Turn) : Prop :=
  (exists i ms response,
      llm i ms = Normal response
      /\ resp_content response = turn_text t
      /\ toolCallsOf response = turn_calls t)
  /\ Forall isToolResult (turn_results t)
  /\ toolResultIds (turn_results t) = answeredIds tools (turn_calls t).

(** The model requests at least one tool invocation. *)
Definition requestsTools (c : Completion AIResponse) : Prop :=
  exists response, c = Normal response /\ toolCallsOf response <> [].




(** A regular expression that, read off its syntax, matches no string. *)
Fixpoint matchesNothing (r : regex) : bool :=
  match r with
  | Never => true
  | Empty => false
  | Class _ => false
  | Seq r1 r2 => matchesNothing r1 || matchesNothing r2
  | Alt r1 r2 => matchesNothing r1 && matchesNothing r2
  end.

(** The ticker format in the words of the specification: 1 to 6 letters,
    optionally followed by a dot or a dash and one more letter. *)
Definition isLetter (ch : ascii) : bool := isUpper ch || isLower ch.

Fixpoint allChars (p : ascii -> bool) (s : string) : bool :=
  match s with
  | EmptyString => true
  | String ch rest => p ch && allChars p rest
  end.

Definition tickerFormat (letter : ascii -> bool) (s : string) : Prop :=
  exists letters suffix,
    s = letters ++ suffix
    /\ 1 <= String.length letters <= 6
    /\ allChars letter letters = true
    /\ (suffix = ""
        \/ exists sep last,
             suffix = String sep (String last "")
             /\ (sep = "."%char \/ sep = "-"%char)
             /\ letter last = true).

End Spec.

Import Spec.

(* ===================================================================== *)
(** ** Stubs: concrete environments and models                            *)
(* ===================================================================== *)

Module Stub.

Definition okResponse {T} (body : T) : Fetched T :=
  Responded {| status := 200; statusText := "OK";
               text := Normal ""; json_body := Normal body |}.

Definition failResponse {T} (code : nat) (reason : string) : Fetched T :=
  Responded {| status := code; statusText := reason;
               text := Normal reason;
               json_body := Throw (ErrorObj "Unexpected end of JSON input") |}.

(** A provider that is down: every request is answered 503. *)
Definition downWorld : World := {|
  MASSIVE_API_KEY := Some "key";
  JSON_stringify := fun _ => "{}";
  toISOString_now := fun _ => "2026-02-05T00:00:00.000Z";
  toLocaleDateString := fun s => s;
  aggs_range := fun _ _ _ => failResponse 503 "Service Unavailable";
  reference_tickers := fun _ _ => failResponse 503 "Service Unavailable";
  reference_news := fun _ _ _ _ => failResponse 503 "Service Unavailable";
  aggs_prev := fun _ _ => failResponse 503 "Service Unavailable";
  indicators_rsi := fun _ _ _ _ => failResponse 503 "Service Unavailable";
  indicators_sma := fun _ _ _ _ => failResponse 503 "Service Unavailable"
|}.

(** A provider that answers every request with an empty result set. *)
Definition quietWorld : World := {|
  MASSIVE_API_KEY := Some "key";
  JSON_stringify := fun _ => "{}";
  toISOString_now := fun _ => "2026-02-05T00:00:00.000Z";
  toLocaleDateString := fun s => s;
  aggs_range := fun _ _ _ => okResponse (Some []);
  reference_tickers := fun _ _ => okResponse None;
  reference_news := fun _ _ _ _ => okResponse (Some []);
  aggs_prev := fun _ _ => okResponse (Some []);
  indicators_rsi := fun _ _ _ _ => okResponse (Some (Some []));
  indicators_sma := fun _ _ _ _ => okResponse (Some (Some []))
|}.

Definition bar (close : Q) : StockAggregate :=
  {| agg_v := 1000; agg_vw := close; agg_o := close; agg_c := close;
     agg_h := close; agg_l := close; agg_t := 0; agg_n := 1 |}.

Definition point (value : Q) : IndicatorValue :=
  {| iv_timestamp := 0; iv_value := value |}.

(** The end-to-end scenario: closes 95 then 100, RSI 55, SMA(10) 98 and
    SMA(20) 90. *)
Definition scenarioWorld : World := {|
  MASSIVE_API_KEY := Some "key";
  JSON_stringify := fun _ => "{}";
  toISOString_now := fun _ => "2026-02-05T00:00:00.000Z";
  toLocaleDateString := fun s => s;
  aggs_range := fun _ _ _ => okResponse (Some [bar 95; bar 100]);
  reference_tickers := fun _ _ => okResponse None;
  reference_news := fun _ _ _ _ => okResponse (Some []);
  aggs_prev := fun _ _ => okResponse (Some [bar 95]);
  indicators_rsi := fun _ _ _ _ => okResponse (Some (Some [point 55]));
  indicators_sma := fun _ _ window _ =>
    okResponse (Some (Some [point (if Qeq_bool window 10 then 98 else 90)]))
|}.

Definition tickerArgs (ticker : string) : Args :=
  {| arg_ticker := ticker; arg_limit := None |}.

(** The three adapters over a given environment. *)
Definition tools (w : World) : list Tool := [
  {| tool_name := "get_stock_data"; tool_func := stockDataFunc w |};
  {| tool_name := "get_stock_news"; tool_func := newsFunc w |};
  {| tool_name := "get_company_details"; tool_func := companyDetailsFunc w |}
].

Definition call (name id : string) : ToolCall :=
  {| tc_name := name; tc_id := Some id; tc_args := tickerArgs "AAPL" |}.

Definition asks (toolCalls : list ToolCall) : Completion AIResponse :=
  Normal {| resp_content := ""; resp_tool_calls := Some toolCalls |}.

Definition says (answer : string) : Completion AIResponse :=
  Normal {| resp_content := answer; resp_tool_calls := None |}.

(** A model that first requests one tool, then answers. *)
Definition oneToolModel (name : string) : nat -> list Message -> Completion AIResponse :=
  fun i _ =>
    match i with
    | 0 => asks [call name "call_1"]
    | _ => says "Here is the analysis."
    end.

(** A model that requests the stock data tool on every invocation. *)
Definition insistentModel : nat -> list Message -> Completion AIResponse :=
  fun i _ => asks [call "get_stock_data" ("call_" ++ showNat i)].

(** A model whose invocation fails at once. *)
Definition brokenModel : nat -> list Message -> Completion AIResponse :=
  fun _ _ => Throw (ErrorObj "connect ECONNREFUSED").

Definition prompt : string := "You are TickerAI.".

End Stub.

(* ===================================================================== *)
(** ** The tRPC router ([stockRouter])                                    *)
(* ===================================================================== *)

Module Router.

(** What a procedure call comes to: the input fails its schema (the
    resolver does not run), or the resolver completes. *)
Inductive Reply (A : Type) : Type :=
| BadRequest
| Replied (c : Completion A).
Arguments BadRequest {A}.
Arguments Replied {A} c.

Record AnalyzeOutput : Type := {
  an_success : bool;
  an_ticker : string;
  an_analysis : string;
  an_timestamp : string
}.

Record ChatOutput : Type := {
  co_success : bool;
  co_ticker : string;
  co_answer : string;
  co_timestamp : string
}.

(** [z.string().min(lo).max(hi)] *)
Definition lengthWithin (lo hi : nat) (s : string) : bool :=
  (lo <=? String.length s)%nat && (String.length s <=? hi)%nat.

(** [z.string().min(1).max(10).toUpperCase()] *)
Definition parseTicker (ticker : string) : option string :=
  if lengthWithin 1 10 ticker then Some (toUpperCase ticker) else None.

(** [z.enum(["user", "assistant"])] on the role of a history entry. *)
Definition validRole (msg : ChatTurn) : bool :=
  (role msg =? "user") || (role msg =? "assistant").

Section Procedures.

Variable llm : nat -> list Message -> Completion AIResponse.
Variable w : World.
Variable SYSTEM_PROMPT : string.

Definition analyzePrompt (ticker : string) : string :=
  "Provide a comprehensive analysis of " ++ ticker
  ++ ". Include current price, technical indicators, recent news sentiment, and key insights.".

(** [stockRouter.analyze] *)
Definition analyze (ticker : string) (k : nat) : Reply AnalyzeOutput * nat :=
  match parseTicker ticker with
  | None => (BadRequest, k)
  | Some ticker =>
      let r := runStockAnalysis llm w SYSTEM_PROMPT (analyzePrompt ticker) [] k in
      match result r with
      | Normal analysis =>
          (Replied (Normal {| an_success := true;
                              an_ticker := ticker;
                              an_analysis := analysis;
                              an_timestamp := toISOString_now w (requests r) |}),
           requests r)
      | Throw error =>
          (Replied (Throw (ErrorObj ("Failed to analyze " ++ ticker ++ ": "
                                     ++ messageOr "Unknown error" error))),
           requests r)
      end
  end.

Definition chatPrompt (ticker question : string) : string :=
  "Regarding " ++ ticker ++ ": " ++ question.

(** [stockRouter.chat]; a missing [chatHistory] is the empty history. *)
Definition chat (ticker question : string) (chatHistory : option (list ChatTurn)) (k : nat)
  : Reply ChatOutput * nat :=
  match parseTicker ticker with
  | None => (BadRequest, k)
  | Some ticker =>
      if negb (lengthWithin 1 500 question) then (BadRequest, k)
      else
        let chatHistory := match chatHistory with Some h => h | None => [] end in
        if negb (forallb validRole chatHistory) then (BadRequest, k)
        else
          let r := runStockAnalysis llm w SYSTEM_PROMPT (chatPrompt ticker question)
                     chatHistory k in
          match result r with
          | Normal response =>
              (Replied (Normal {| co_success := true;
                                  co_ticker := ticker;
                                  co_answer := response;
                                  co_timestamp := toISOString_now w (requests r) |}),
               requests r)
          | Throw error =>
              (Replied (Throw (ErrorObj ("Failed to process question: "
                                         ++ messageOr "Unknown error" error))),
               requests r)
          end
  end.

End Procedures.

End Router.

(* ===================================================================== *)
(** ** The route handlers ([/api/validate-ticker], [/api/stock-chart])    *)
(* ===================================================================== *)

Module Routes.

(** [NextResponse.json(body, { status })]; the status defaults to 200. *)
Record NextResponse (B : Type) : Type := {
  http_status : nat;
  payload : B
}.
Arguments http_status {B} n.
Arguments payload {B} n.

(** [fetch(url)] used directly: one request, the response whatever its
    status. *)
Definition fetchRaw {T} (endpoint : nat -> Fetched T) : IO (Response T) :=
  fun k =>
    (match endpoint k with
     | Rejected e => Throw e
     | Responded response => Normal response
     end, S k).

(** The body of a validation response; a field that the handler leaves out
    is [None]. *)
Record ValidateBody : Type := {
  vb_valid : bool;
  vb_ticker : option string;
  vb_name : option string;
  vb_error : option string;
  vb_message : option string
}.

Definition invalidTicker (ticker : string) : NextResponse ValidateBody :=
  {| http_status := 200;
     payload := {| vb_valid := false; vb_ticker := Some ticker; vb_name := None;
                   vb_error := None; vb_message := None |} |}.

(** [POST] of [/api/validate-ticker]; [requestJson] is what
    [request.json()] comes to, with the field [ticker] of the body. *)
Definition validateTicker (w : World) (requestJson : Completion (option string))
  : IO (NextResponse ValidateBody) :=
  tryCatch
    (ticker <- lift requestJson ;;
     match ticker with
     | None | Some EmptyString =>
         ret {| http_status := 400;
                payload := {| vb_valid := false; vb_ticker := None; vb_name := None;
                              vb_error := Some "Ticker is required";
                              vb_message := None |} |}
     | Some ticker =>
         if falsyOptString (MASSIVE_API_KEY w)
         then throw (ErrorObj "Massive API key not configured")
         else
           response <- fetchRaw (fun k => reference_tickers w k (toUpperCase ticker)) ;;
           if (status response =? 404)%nat then ret (invalidTicker (toUpperCase ticker))
           else if negb (ok response) then
             ret {| http_status := 200;
                    payload := {| vb_valid := false; vb_ticker := None; vb_name := None;
                                  vb_error := Some "Unable to validate ticker";
                                  vb_message := None |} |}
           else
             data <- lift (json_body response) ;;
             match data with
             | Some results =>
                 if falsyString (td_ticker results)
                 then ret (invalidTicker (toUpperCase ticker))
                 else
                   ret {| http_status := 200;
                          payload := {| vb_valid := true;
                                        vb_ticker := Some (td_ticker results);
                                        vb_name := Some (td_name results);
                                        vb_error := None; vb_message := None |} |}
             | None => ret (invalidTicker (toUpperCase ticker))
             end
     end)
    (fun error =>
       ret {| http_status := 500;
              payload := {| vb_valid := false; vb_ticker := None; vb_name := None;
                            vb_error := Some "Failed to validate ticker";
                            vb_message := Some (messageOr "Unknown error" error) |} |}).

(** A point of the chart series. *)
Record ChartPoint : Type := {
  cp_date : string;
  cp_price : Q;
  cp_volume : Q;
  cp_timestamp : Q;
  cp_high : Q;
  cp_low : Q;
  cp_open : Q
}.

Record ChartMeta : Type := {
  cm_ticker : string;
  cm_timeframe : string;
  cm_dataPoints : nat;
  cm_startDate : string;
  cm_endDate : string
}.

Record ChartBody : Type := {
  cb_success : bool;
  cb_data : option (list ChartPoint);
  cb_error : option string;
  cb_message : option string;
  cb_meta : option ChartMeta
}.

(** [switch (timeframe)]: 7 and 90 days for "7D" and "90D", 30 days for
    "30D" and for anything else. *)
Definition daysBack (timeframe : string) : Q :=
  if timeframe =? "7D" then 7
  else if timeframe =? "90D" then 90
  else 30.

Section StockChart.

Variable w : World.

(** Host functions of the chart handler:
    [new Date(t).toISOString().split('T')[0]], which throws on a timestamp
    that is no date, [parseFloat(c.toFixed(2))], and the start and end
    dates of the window. *)
Variable isoDay : Q -> Completion string.
Variable toFixed2 : Q -> Q.
Variable startDateStr : Q -> string.
Variable endDateStr : string.

(** [data.results.map((item) => ({ ... }))] *)
Fixpoint chartPoints (results : list StockAggregate) : Completion (list ChartPoint) :=
  match results with
  | [] => Normal []
  | item :: rest =>
      match isoDay (agg_t item) with
      | Throw e => Throw e
      | Normal date =>
          match chartPoints rest with
          | Throw e => Throw e
          | Normal points =>
              Normal ({| cp_date := date;
                         cp_price := toFixed2 (agg_c item);
                         cp_volume := agg_v item;
                         cp_timestamp := agg_t item;
                         cp_high := agg_h item;
                         cp_low := agg_l item;
                         cp_open := agg_o item |} :: points)
          end
      end
  end.

Definition chartFailure (code : nat) (error : string) (message : option string)
  : NextResponse ChartBody :=
  {| http_status := code;
     payload := {| cb_success := false; cb_data := None; cb_error := Some error;
                   cb_message := message; cb_meta := None |} |}.

(** [POST] of [/api/stock-chart]; the body carries [ticker] and
    [timeframe], which defaults to "30D". *)
Definition stockChart (requestJson : Completion (option string * option string))
  : IO (NextResponse ChartBody) :=
  tryCatch
    (body <- lift requestJson ;;
     let timeframe := match snd body with Some timeframe => timeframe | None => "30D" end in
     match fst body with
     | None | Some EmptyString => ret (chartFailure 400 "Ticker symbol is required" None)
     | Some ticker =>
         if falsyOptString (MASSIVE_API_KEY w)
         then throw (ErrorObj "Massive API key not configured")
         else
           response <- fetchRaw (fun k => aggs_range w k ticker (daysBack timeframe)) ;;
           if negb (ok response) then
             _ <- lift (text response) ;;
             throw (ErrorObj ("Failed to fetch chart data: " ++ showNat (status response)
                              ++ " " ++ statusText response))
           else
             data <- lift (json_body response) ;;
             match data with
             | None | Some [] =>
                 ret {| http_status := 200;
                        payload := {| cb_success := false; cb_data := None;
                                      cb_error := Some "No chart data available for this ticker and timeframe";
                                      cb_message := None; cb_meta := None |} |}
             | Some results =>
                 chartData <- lift (chartPoints results) ;;
                 ret {| http_status := 200;
                        payload := {| cb_success := true;
                                      cb_data := Some chartData;
                                      cb_error := None; cb_message := None;
                                      cb_meta := Some {| cm_ticker := toUpperCase ticker;
                                                         cm_timeframe := timeframe;
                                                         cm_dataPoints := length chartData;
                                                         cm_startDate :=
                                                           startDateStr (daysBack timeframe);
                                                         cm_endDate := endDateStr |} |} |}
             end
     end)
    (fun error =>
       ret (chartFailure 500 "Failed to fetch chart data"
              (Some (messageOr "Unknown error" error)))).

End StockChart.

End Routes.

(* ===================================================================== *)
(** ** The page: submission flow, sentiment and conversation history      *)
(* ===================================================================== *)

Module PageState.

Import Routes.

(** How a first submission ends ([analysisPerformed] is false). *)
Inductive Submission : Type :=
| Dropped                            (* blank input *)
| FormatRejected                     (* the format error message *)
| UnknownTicker (ticker : string)    (* "is not a valid stock ticker" *)
| ValidationFailed (ticker : string) (* "Unable to validate ticker" *)
| Analyzing (ticker : string).       (* analyzeMutation.mutate({ ticker }) *)

(** [handleSubmit] on a first submission, to its end; [post] is the
    request to [/api/validate-ticker] followed by [response.json()]. *)
Definition submitTicker (post : string -> IO ValidateBody) (input : string) : IO Submission :=
  match handleSubmit input with
  | Ignored => ret Dropped
  | InvalidFormat => ret FormatRejected
  | Validate ticker =>
      tryCatch
        (result <- post ticker ;;
         if negb (vb_valid result) then ret (UnknownTicker ticker)
         else ret (Analyzing ticker))
        (fun _ => ret (ValidationFailed ticker))
  end.

(** The request as the route handler answers it, when the transport
    delivers the request and the response unchanged. *)
Definition postToRoute (w : World) (ticker : string) : IO ValidateBody :=
  response <- validateTicker w (Normal (Some ticker)) ;;
  ret (payload response).

(** [s.toLowerCase()], on characters of the ASCII range. *)
Definition lowerChar (ch : ascii) : ascii :=
  if isUpper ch then ascii_of_nat (nat_of_ascii ch + 32) else ch.

Fixpoint toLowerCase (s : string) : string :=
  match s with
  | EmptyString => EmptyString
  | String ch rest => String (lowerChar ch) (toLowerCase rest)
  end.

(** [s.includes(sub)] *)
Fixpoint includes (s sub : string) : bool :=
  prefix sub s
  || match s with
     | EmptyString => false
     | String _ rest => includes rest sub
     end.

Inductive Sentiment : Type := bullish | bearish | neutral.

Definition bullishKeywords : list string :=
  ["bullish"; "positive"; "upward"; "growth"; "strong buy"; "buy"].

Definition bearishKeywords : list string :=
  ["bearish"; "negative"; "downward"; "decline"; "sell"; "weak"].

(** [keywords.reduce((score, keyword) =>
      score + (lowerAnalysis.includes(keyword) ? 1 : 0), 0)] *)
Definition keywordScore (lowerAnalysis : string) (keywords : list string) : nat :=
  fold_left (fun score keyword => score + (if includes lowerAnalysis keyword then 1 else 0))
            keywords 0.

Definition detectSentiment (analysis : string) : Sentiment :=
  let lowerAnalysis := toLowerCase analysis in
  let bullishScore := keywordScore lowerAnalysis bullishKeywords in
  let bearishScore := keywordScore lowerAnalysis bearishKeywords in
  if (bearishScore <? bullishScore)%nat then bullish
  else if (bullishScore <? bearishScore)%nat then bearish
  else neutral.

Inductive MessageType : Type := user | assistant.

Record StockData : Type := {
  sd_ticker : string;
  sd_currentPrice : Q;
  sd_change : Q;
  sd_changePercent : Q;
  sd_dayHigh : Q;
  sd_dayLow : Q;
  sd_volume : Q;
  sd_rsi : option Q;
  sd_sma10 : option Q;
  sd_sma20 : option Q;
  sd_timestamp : string
}.

Record ChatMessage : Type := {
  msg_id : string;
  msg_type : MessageType;
  msg_content : string;
  msg_timestamp : string;
  msg_ticker : option string;
  msg_stockData : option StockData;
  msg_sentiment : option Sentiment
}.

Record ConversationHistory : Type := {
  conv_id : string;
  conv_ticker : string;
  conv_timestamp : string;
  conv_preview : string;
  conv_messages : list ChatMessage
}.

(** The state of [StockAnalysisPage]. *)
Record State : Type := {
  st_messages : list ChatMessage;
  st_input : string;
  analysisPerformed : bool;
  conversations : list ConversationHistory;
  currentConversationId : option string;
  activeTicker : option string
}.

Definition handleNewChat (st : State) : State :=
  {| st_messages := [];
     st_input := "";
     analysisPerformed := false;
     conversations := conversations st;
     currentConversationId := None;
     activeTicker := None |}.

Definition handleSelectConversation (conversationId : string) (st : State) : State :=
  match find (fun c => conv_id c =? conversationId) (conversations st) with
  | Some conversation =>
      {| st_messages := conv_messages conversation;
         st_input := st_input st;
         analysisPerformed := true;
         conversations := conversations st;
         currentConversationId := Some conversationId;
         activeTicker := Some (conv_ticker conversation) |}
  | None => st
  end.

(** [c.id === currentConversationId], where the current identifier may be
    [null]. *)
Definition isCurrent (current : option string) (c : ConversationHistory) : bool :=
  match current with
  | Some id => conv_id c =? id
  | None => false
  end.

(** The copy of the history in which the first current conversation holds
    [updatedMessages]. *)
Fixpoint replaceMessages (current : option string) (updatedMessages : list ChatMessage)
    (cs : list ConversationHistory) : list ConversationHistory :=
  match cs with
  | [] => []
  | c :: rest =>
      if isCurrent current c then
        {| conv_id := conv_id c; conv_ticker := conv_ticker c;
           conv_timestamp := conv_timestamp c; conv_preview := conv_preview c;
           conv_messages := updatedMessages |} :: rest
      else c :: replaceMessages current updatedMessages rest
  end.

(** [saveConversationToHistory]; [nowId] is [Date.now().toString()] and
    [nowDate] is [new Date()]. *)
Definition saveConversationToHistory (nowId nowDate : string) (ticker : string)
    (updatedMessages : list ChatMessage) (st : State) : State :=
  if existsb (isCurrent (currentConversationId st)) (conversations st) then
    {| st_messages := st_messages st;
       st_input := st_input st;
       analysisPerformed := analysisPerformed st;
       conversations :=
         replaceMessages (currentConversationId st) updatedMessages (conversations st);
       currentConversationId := currentConversationId st;
       activeTicker := activeTicker st |}
  else
    {| st_messages := st_messages st;
       st_input := st_input st;
       analysisPerformed := analysisPerformed st;
       conversations :=
         {| conv_id := nowId; conv_ticker := ticker; conv_timestamp := nowDate;
            conv_preview := "Analysis for " ++ ticker;
            conv_messages := updatedMessages |} :: firstn 19 (conversations st);
       currentConversationId := Some nowId;
       activeTicker := activeTicker st |}.

End PageState.

(* ===================================================================== *)
(** ** The sidebar ([formatTimeAgo])                                      *)
(* ===================================================================== *)

Module Sidebar.

(** [`${n}`] for an integer. *)
Definition showInt (n : Z) : string :=
  if (n <? 0)%Z then "-" ++ showNat (Z.to_nat (- n)) else showNat (Z.to_nat n).

(** [formatTimeAgo(date)]; [now] and [date] are the two instants in
    milliseconds, [localeDate] is [date.toLocaleDateString()]. *)
Definition formatTimeAgo (now date : Z) (localeDate : string) : string :=
  let diffInMs := (now - date)%Z in
  let diffInMinutes := (diffInMs / (1000 * 60))%Z in
  let diffInHours := (diffInMinutes / 60)%Z in
  let diffInDays := (diffInHours / 24)%Z in
  if (diffInMinutes <? 60)%Z then showInt diffInMinutes ++ "m ago"
  else if (diffInHours <? 24)%Z then showInt diffInHours ++ "h ago"
  else if (diffInDays <? 7)%Z then showInt diffInDays ++ "d ago"
  else localeDate.

End Sidebar.

(* ===================================================================== *)
(** ** More stubs                                                         *)
(* ===================================================================== *)

Module Fixture.

Import PageState.

Definition apple : TickerDetails := {|
  td_ticker := "AAPL"; td_name := "Apple Inc."; td_market := "stocks";
  td_locale := "us"; td_primary_exchange := "XNAS"; td_type := "CS";
  td_active := true; td_currency_name := "usd";
  td_description := None; td_market_cap := None; td_total_employees := None;
  td_list_date := None; td_branding := None
|}.

(** A provider that knows the ticker AAPL and nothing else. *)
Definition appleWorld : World := {|
  MASSIVE_API_KEY := Some "key";
  JSON_stringify := fun _ => "{}";
  toISOString_now := fun _ => "2026-02-05T00:00:00.000Z";
  toLocaleDateString := fun s => s;
  aggs_range := fun _ _ _ => Stub.okResponse (Some [Stub.bar 95; Stub.bar 100]);
  reference_tickers := fun _ ticker =>
    if ticker =? "AAPL" then Stub.okResponse (Some apple)
    else Stub.failResponse 404 "Not Found";
  reference_news := fun _ _ _ _ => Stub.okResponse (Some []);
  aggs_prev := fun _ _ => Stub.okResponse (Some [Stub.bar 95]);
  indicators_rsi := fun _ _ _ _ => Stub.okResponse (Some (Some [Stub.point 0]));
  indicators_sma := fun _ _ _ _ => Stub.okResponse (Some (Some []))
|}.

Definition headline : NewsArticle := {|
  na_id := "n1";
  na_publisher := {| pub_name := "The Motley Fool"; pub_homepage_url := None;
                     pub_logo_url := None; pub_favicon_url := None |};
  na_title := "Is Apple Still a Good Growth Stock?";
  na_author := None;
  na_published_utc := "2026-02-05T12:00:00Z";
  na_article_url := "https://example.com/apple";
  na_tickers := ["AAPL"];
  na_amp_url := None; na_image_url := None; na_description := None;
  na_keywords := None; na_insights := None
|}.

(** A provider with one article about every ticker. *)
Definition newsWorld : World := {|
  MASSIVE_API_KEY := Some "key";
  JSON_stringify := fun _ => "{}";
  toISOString_now := fun _ => "2026-02-05T00:00:00.000Z";
  toLocaleDateString := fun s => s;
  aggs_range := fun _ _ _ => Stub.okResponse (Some []);
  reference_tickers := fun _ _ => Stub.okResponse None;
  reference_news := fun _ _ _ _ => Stub.okResponse (Some [headline]);
  aggs_prev := fun _ _ => Stub.okResponse (Some []);
  indicators_rsi := fun _ _ _ _ => Stub.okResponse (Some (Some []));
  indicators_sma := fun _ _ _ _ => Stub.okResponse (Some (Some []))
|}.

(** An environment without the provider key. *)
Definition keylessWorld : World := {|
  MASSIVE_API_KEY := None;
  JSON_stringify := JSON_stringify Stub.quietWorld;
  toISOString_now := toISOString_now Stub.quietWorld;
  toLocaleDateString := toLocaleDateString Stub.quietWorld;
  aggs_range := aggs_range Stub.quietWorld;
  reference_tickers := reference_tickers Stub.quietWorld;
  reference_news := reference_news Stub.quietWorld;
  aggs_prev := aggs_prev Stub.quietWorld;
  indicators_rsi := indicators_rsi Stub.quietWorld;
  indicators_sma := indicators_sma Stub.quietWorld
|}.

(** A model that answers at once. *)
Definition directModel : nat -> list Message -> Completion AIResponse :=
  fun _ _ => Stub.says "AAPL looks steady.".

Definition note (id content : string) : ChatMessage := {|
  msg_id := id; msg_type := assistant; msg_content := content;
  msg_timestamp := "2026-02-05"; msg_ticker := None;
  msg_stockData := None; msg_sentiment := None
|}.

Definition emptyState : State := {|
  st_messages := []; st_input := ""; analysisPerformed := false;
  conversations := []; currentConversationId := None; activeTicker := None
|}.

(** A model that requests the news and the company details under one
    call identifier, then answers. *)
Definition sameIdModel : nat -> list Message -> Completion AIResponse :=
  fun i _ =>
    match i with
    | 0 => Stub.asks [Stub.call "get_stock_news" "x"; Stub.call "get_company_details" "x"]
    | _ => Stub.says "Here is the analysis."
    end.

(** A model that requests the news and the company details under two
    call identifiers, then answers. *)
Definition twoToolModel : nat -> list Message -> Completion AIResponse :=
  fun i _ =>
    match i with
    | 0 => Stub.asks [Stub.call "get_stock_news" "call_1";
                      Stub.call "get_company_details" "call_2"]
    | _ => Stub.says "Here is the analysis."
    end.

End Fixture.

(* ===================================================================== *)
(** ** Vocabulary of the further properties                               *)
(* ===================================================================== *)

Module Props.

(** A request that does not deliver a body: it is rejected, answered with
    a status outside 200-299, or its body cannot be read. *)
Definition failed {T} (f : Fetched T) : Prop :=
  match f with
  | Rejected _ => True
  | Responded r => ok r = false \/ exists e, json_body r = Throw e
  end.

(** A message of a sequence before any tool was requested: what the
    caller's history and the two fixed messages consist of. *)
Definition plainMessage (m : Message) : Prop :=
  match m with
  | SystemMessage _ | HumanMessage _ | AIMessage _ [] => True
  | _ => False
  end.

(** A string of characters of the ASCII range only.  On such a string the
    case mappings and the whitespace class of the embedding are those of
    JavaScript. *)
Definition isAscii (s : string) : bool :=
  allChars (fun ch => (nat_of_ascii ch <? 128)%nat) s.

(** The content of the ToolResult message for an invocation: the text the
    adapter returned, or the description of what it threw. *)
Definition resultText (outcome : Completion string) : string :=
  match outcome with
  | Normal result => result
  | Throw error => "Error: " ++ messageOr "Unknown" error
  end.

End Props.

(* ===================================================================== *)
(** ** The arithmetic of the snapshot in binary64                         *)
(* ===================================================================== *)

(** A JavaScript number is an IEEE 754 binary64 value, and the operators
    [-], [/], [*] and [+] round to nearest.  This module is
    [calculateStockMetrics] once more, on binary64 values, as a function of
    the series it is passed and of the three indicator series its gateway
    calls resolve to. *)
Module Binary64.

Import Floats.PrimFloat.
#[local] Open Scope float_scope.

(** A bar of the aggregates series ([StockAggregate]). *)
Record StockAggregate : Type := {
  agg_v : float;
  agg_vw : float;
  agg_o : float;
  agg_c : float;
  agg_h : float;
  agg_l : float;
  agg_t : float;
  agg_n : float
}.

(** An entry of an indicator series. *)
Record IndicatorValue : Type := {
  iv_timestamp : float;
  iv_value : float
}.

(** The record [calculateStockMetrics] returns. *)
Record StockMetrics : Type := {
  currentPrice : float;
  previousClose : float;
  change : float;
  changePercent : float;
  dayHigh : float;
  dayLow : float;
  volume : float;
  avgVolume : float;
  rsi : option float;
  sma10 : option float;
  sma20 : option float;
  priceRangeHigh : float;
  priceRangeLow : float
}.

(** [v || null] for a number: [0], [-0] and [NaN] are falsy. *)
Definition orNull (v : option float) : option float :=
  match v with
  | Some x => if is_zero x || is_nan x then None else Some x
  | None => None
  end.

(** [data[0]?.value || null] *)
Definition firstValue (data : list IndicatorValue) : option float :=
  orNull (option_map iv_value (index data 0)).

(** One step of [Math.max]: [NaN] wins, and [+0] is larger than [-0]. *)
Definition max2 (a b : float) : float :=
  if is_nan a || is_nan b then nan
  else if ltb a b then b
  else if ltb b a then a
  else if get_sign a then b else a.

(** One step of [Math.min]: [NaN] wins, and [-0] is smaller than [+0]. *)
Definition min2 (a b : float) : float :=
  if is_nan a || is_nan b then nan
  else if ltb a b then a
  else if ltb b a then b
  else if get_sign a then a else b.

(** [Math.max(...xs)] and [Math.min(...xs)]; on no argument they are
    [-Infinity] and [Infinity]. *)
Definition Math_max (xs : list float) : float := fold_left max2 xs neg_infinity.

Definition Math_min (xs : list float) : float := fold_left min2 xs infinity.

(** [xs.length] as a number. *)
Definition lengthOf {A} (xs : list A) : float := of_uint63 (Uint63.of_nat (length xs)).

Definition calculateStockMetrics (aggregates : list StockAggregate)
    (rsiData sma10Data sma20Data : list IndicatorValue) : Completion StockMetrics :=
  let closes := map agg_c aggregates in
  let volumes := map agg_v aggregates in
  let latest := index aggregates (len aggregates - 1) in
  let previous := index aggregates (len aggregates - 2) in
  match latest with
  | None => Throw (ErrorObj "Cannot read properties of undefined (reading 'c')")
  | Some latest =>
      Normal {|
        currentPrice := agg_c latest;
        previousClose :=
          match previous with Some previous => agg_c previous | None => agg_c latest end;
        change :=
          agg_c latest
          - match previous with Some previous => agg_c previous | None => agg_c latest end;
        changePercent :=
          match previous with
          | Some previous => ((agg_c latest - agg_c previous) / agg_c previous) * 100
          | None => 0
          end;
        dayHigh := agg_h latest;
        dayLow := agg_l latest;
        volume := agg_v latest;
        avgVolume := fold_left add volumes 0 / lengthOf volumes;
        rsi := firstValue rsiData;
        sma10 := firstValue sma10Data;
        sma20 := firstValue sma20Data;
        priceRangeHigh := Math_max closes;
        priceRangeLow := Math_min closes
      |}
  end.

(** A bar with the given close, and an indicator entry with the given
    value. *)
Definition bar (close : float) : StockAggregate :=
  {| agg_v := 1000; agg_vw := close; agg_o := close; agg_c := close;
     agg_h := close; agg_l := close; agg_t := 0; agg_n := 1 |}.

Definition point (value : float) : IndicatorValue :=
  {| iv_timestamp := 0; iv_value := value |}.

End Binary64.

(* ===================================================================== *)
(** ** Properties of the gateway and of the adapters                      *)
(* ===================================================================== *)

Section AdapterFacts.

Variable w : World.

(** A [try] whose handler returns a default value does not throw. *)
Lemma tryCatch_default_total {A} (body : IO A) (d : A) (k : nat) :
  exists a k', tryCatch body (fun _ => ret d) k = (Normal a, k').
Proof.
  unfold tryCatch, ret.
  destruct (body k) as [[a | e] k']; eauto.
Qed.

Lemma getRSI_total ticker window limit k :
  exists data k', getRSI w ticker window limit k = (Normal data, k').
Proof. apply tryCatch_default_total. Qed.

Lemma getSMA_total ticker window limit k :
  exists data k', getSMA w ticker window limit k = (Normal data, k').
Proof. apply tryCatch_default_total. Qed.



(** A [try] whose handler returns a text yields a text. *)
Lemma tryCatch_text_total (body : IO string) (describe : Thrown -> string) (k : nat) :
  exists s k', tryCatch body (fun error => ret (describe error)) k = (Normal s, k').
Proof.
  unfold tryCatch, ret.
  destruct (body k) as [[a | e] k']; eauto.
Qed.

Lemma stockDataFunc_total args k :
  exists s k', stockDataFunc w args k = (Normal s, k').
Proof. apply tryCatch_text_total. Qed.

Lemma newsFunc_total args k :
  exists s k', newsFunc w args k = (Normal s, k').
Proof. apply tryCatch_text_total. Qed.

Lemma companyDetailsFunc_total args k :
  exists s k', companyDetailsFunc w args k = (Normal s, k').
Proof. apply tryCatch_text_total. Qed.



(** What [calculateStockMetrics] returns once the three indicator series
    are known. *)
Lemma calculateStockMetrics_eq ticker aggregates k :
  exists rsiData sma10Data sma20Data k1 k2 k3,
    getRSI w ticker 14 1 k = (Normal rsiData, k1)
    /\ getSMA w ticker 10 1 k1 = (Normal sma10Data, k2)
    /\ getSMA w ticker 20 1 k2 = (Normal sma20Data, k3)
    /\ calculateStockMetrics w ticker aggregates k =
       (let latest := index aggregates (len aggregates - 1) in
        let previous := index aggregates (len aggregates - 2) in
        match latest with
        | None => throw (ErrorObj "Cannot read properties of undefined (reading 'c')")
        | Some latest =>
            ret {|
              currentPrice := agg_c latest;
              previousClose :=
                match previous with Some previous => agg_c previous | None => agg_c latest end;
              change :=
                (agg_c latest
                 - match previous with Some previous => agg_c previous | None => agg_c latest end)%Q;
              changePercent :=
                match previous with
                | Some previous =>
                    scale (div (agg_c latest - agg_c previous)%Q (agg_c previous)) 100
                | None => Num 0%Q
                end;
              dayHigh := agg_h latest;
              dayLow := agg_l latest;
              volume := agg_v latest;
              avgVolume := div (fold_left Qplus (map agg_v aggregates) 0%Q)
                               (inject_Z (len (map agg_v aggregates)));
              rsi := firstValue rsiData;
              sma10 := firstValue sma10Data;
              sma20 := firstValue sma20Data;
              priceRangeHigh := Math_max (map agg_c aggregates);
              priceRangeLow := Math_min (map agg_c aggregates)
            |}
        end) k3.
Proof.
  destruct (getRSI_total ticker 14 1 k) as (rsiData & k1 & H1).
  destruct (getSMA_total ticker 10 1 k1) as (sma10Data & k2 & H2).
  destruct (getSMA_total ticker 20 1 k2) as (sma20Data & k3 & H3).
  exists rsiData, sma10Data, sma20Data, k1, k2, k3.
  repeat split; try assumption.
  unfold calculateStockMetrics, bind.
  rewrite H1, H2, H3. reflexivity.
Qed.

End AdapterFacts.

(** C10. When the aggregates series holds exactly one bar, the snapshot is
    computed (nothing fails), its previous close is the current price,
    which is the close of that bar, its change is 0 and its percentage
    change is 0. *)
Theorem single_bar_snapshot (w : World) (ticker : string) (only : StockAggregate) (k : nat) :
  exists m,
    fst (calculateStockMetrics w ticker [only] k) = Normal m
    /\ currentPrice m = agg_c only
    /\ previousClose m = currentPrice m
    /\ (change m == 0)%Q
    /\ changePercent m = Num 0.
Proof.
  destruct (calculateStockMetrics_eq w ticker [only] k)
    as (rsiData & sma10Data & sma20Data & k1 & k2 & k3 & _ & _ & _ & E).
  rewrite E. cbn.
  eexists. split; [reflexivity |]. cbn.
  repeat split. ring.
Qed.



Section SnapshotScenario.

Import Floats.PrimFloat.
#[local] Set Warnings "-inexact-float".




End SnapshotScenario.

(** C7. When the gateway returns an empty news sequence for the ticker X
    the News Adapter returns the text "No recent news for X", and when the
    gateway reports the company details of X absent the Company Details
    Adapter returns the text "No company details found for X". *)
Theorem sentinel_texts (w : World) (args : Args) (k : nat) :
  let ticker := arg_ticker args in
  let limit := match arg_limit args with Some limit => limit | None => 5%Q end in
  (fst (getNews w (toUpperCase ticker) limit desc k) = Normal []
   -> fst (newsFunc w args k) = Normal ("No recent news for " ++ ticker))
  /\ (fst (getTickerDetails w (toUpperCase ticker) k) = Normal None
      -> fst (companyDetailsFunc w args k) = Normal ("No company details found for " ++ ticker)).
Proof.
  intros ticker limit. split; intros H.
  - unfold newsFunc, tryCatch, bind. fold ticker limit.
    destruct (getNews w (toUpperCase ticker) limit desc k) as [[news | e] k']; cbn in H;
      [| discriminate].
    injection H as ->. reflexivity.
  - unfold companyDetailsFunc, tryCatch, bind. fold ticker.
    destruct (getTickerDetails w (toUpperCase ticker) k) as [[details | e] k']; cbn in H;
      [| discriminate].
    injection H as ->. reflexivity.
Qed.

Lemma sentinel_texts_witness :
  fst (newsFunc Stub.quietWorld (Stub.tickerArgs "AAPL") 0) = Normal "No recent news for AAPL"
  /\ fst (companyDetailsFunc Stub.quietWorld (Stub.tickerArgs "AAPL") 0)
     = Normal "No company details found for AAPL".
Proof.
  split.
  - apply (proj1 (sentinel_texts Stub.quietWorld (Stub.tickerArgs "AAPL") 0)). reflexivity.
  - apply (proj2 (sentinel_texts Stub.quietWorld (Stub.tickerArgs "AAPL") 0)). reflexivity.
Defined.

(* ===================================================================== *)
(** ** Properties of the agent loop                                       *)
(* ===================================================================== *)

Section ToolExecution.

Variable tools : list Tool.

(** The tool-execution phase only appends to [messages]. *)
Lemma executeToolCalls_appends (toolCalls : list ToolCall) :
  forall (ms : list Message) (k : nat),
    executeToolCalls tools toolCalls ms k
    = ((ms ++ fst (executeToolCalls tools toolCalls [] k))%list,
       snd (executeToolCalls tools toolCalls [] k)).
Proof.
  induction toolCalls as [| toolCall rest IH]; intros ms k; cbn.
  - rewrite app_nil_r. reflexivity.
  - destruct (findTool tools toolCall) as [tool |]; [| apply IH].
    destruct (tc_id toolCall) as [[| ch id] |]; try apply IH.
    destruct (tool_func tool (tc_args toolCall) k) as [[result | error] k'];
      rewrite IH; symmetry; rewrite IH; cbn; rewrite <- app_assoc; reflexivity.
Qed.

(** A requested invocation that is not answerable leaves no trace. *)
Lemma executeToolCalls_skip (toolCall : ToolCall) (rest : list ToolCall)
    (ms : list Message) (k : nat) :
  answerable tools toolCall = false ->
  executeToolCalls tools (toolCall :: rest) ms k = executeToolCalls tools rest ms k.
Proof.
  unfold answerable. intros H. cbn.
  destruct (findTool tools toolCall) as [tool |]; [| reflexivity].
  destruct (tc_id toolCall) as [[| ch id] |]; try reflexivity.
  discriminate.
Qed.

(** An answerable invocation appends exactly one ToolResult message, which
    carries its call identifier. *)
Lemma executeToolCalls_answer (toolCall : ToolCall) (rest : list ToolCall)
    (ms : list Message) (k : nat) :
  answerable tools toolCall = true ->
  exists content id k',
    tc_id toolCall = Some id
    /\ executeToolCalls tools (toolCall :: rest) ms k
       = executeToolCalls tools rest (ms ++ [ToolMessage content id])%list k'.
Proof.
  unfold answerable. intros H. cbn.
  destruct (findTool tools toolCall) as [tool |]; [| discriminate].
  destruct (tc_id toolCall) as [[| ch id] |]; try discriminate.
  destruct (tool_func tool (tc_args toolCall) k) as [[result | error] k']; eauto.
Qed.

(** What the tool-execution phase appends: ToolResult messages only, one
    per answerable invocation, in request order. *)
Lemma executeToolCalls_results (toolCalls : list ToolCall) :
  forall k : nat,
    Forall isToolResult (fst (executeToolCalls tools toolCalls [] k))
    /\ toolResultIds (fst (executeToolCalls tools toolCalls [] k))
       = answeredIds tools toolCalls.
Proof.
  induction toolCalls as [| toolCall rest IH]; intros k.
  - cbn. split; [constructor | reflexivity].
  - unfold answeredIds. cbn [filter].
    destruct (answerable tools toolCall) eqn:E.
    + destruct (executeToolCalls_answer toolCall rest [] k E)
        as (content & id & k' & Hid & Hexec).
      rewrite Hexec, executeToolCalls_appends. cbn [fst app].
      destruct (IH k') as [Hall Hids].
      split.
      * constructor; [exact I | exact Hall].
      * cbn. rewrite Hid. cbn. f_equal. exact Hids.
    + rewrite (executeToolCalls_skip toolCall rest [] k E). apply IH.
Qed.

End ToolExecution.

Section LoopFacts.

Variable llm : nat -> list Message -> Completion AIResponse.
Variable tools : list Tool.

Lemma whileLoop_turns (remaining : nat) :
  forall (it : nat) (ms : list Message) (k : nat),
  exists turns,
    messages (whileLoop llm tools remaining it ms k) = (ms ++ flat_map segment turns)%list
    /\ Forall (producedTurn llm tools) turns.
Proof.
  induction remaining as [| remaining IH]; intros it ms k; cbn.
  - exists []. cbn. rewrite app_nil_r. split; [reflexivity | constructor].
  - destruct (llm it ms) as [response | e] eqn:Ellm.
    + destruct (length (toolCallsOf response) =? 0)%nat.
      * exists []. cbn. rewrite app_nil_r. split; [reflexivity | constructor].
      * rewrite executeToolCalls_appends.
        set (new := fst (executeToolCalls tools (toolCallsOf response) [] k)).
        set (k' := snd (executeToolCalls tools (toolCallsOf response) [] k)).
        destruct (IH (S it)
                    ((ms ++ [AIMessage (resp_content response) (toolCallsOf response)]) ++ new)%list
                    k') as (turns & Hmsgs & Hturns).
        exists ({| turn_text := resp_content response;
                   turn_calls := toolCallsOf response;
                   turn_results := new |} :: turns).
        split.
        -- rewrite Hmsgs. cbn. unfold segment at 2. cbn.
           repeat rewrite <- app_assoc. reflexivity.
        -- constructor; [| exact Hturns].
           split; [exists it, ms, response; auto |].
           apply executeToolCalls_results.
    + exists []. cbn. rewrite app_nil_r. split; [reflexivity | constructor].
Qed.

(** The counter never passes the cap. *)
Lemma whileLoop_iterations (remaining : nat) :
  forall (it : nat) (ms : list Message) (k : nat),
    iterations (whileLoop llm tools remaining it ms k) <= it + remaining.
Proof.
  induction remaining as [| remaining IH]; intros it ms k; cbn.
  - lia.
  - destruct (llm it ms) as [response | e]; cbn; [| lia].
    destruct (length (toolCallsOf response) =? 0)%nat; cbn; [lia |].
    destruct (executeToolCalls tools (toolCallsOf response) _ k) as [ms' k'].
    specialize (IH (S it) ms' k'). lia.
Qed.

(** A model that keeps requesting tools drives the loop to the cap. *)
Lemma whileLoop_never_stops (remaining : nat) :
  forall (it : nat) (ms : list Message) (k : nat),
    (forall i ms', i < it + remaining -> requestsTools (llm i ms')) ->
    result (whileLoop llm tools remaining it ms k) = Throw (ErrorObj "Max iterations reached")
    /\ iterations (whileLoop llm tools remaining it ms k) = it + remaining.
Proof.
  induction remaining as [| remaining IH]; intros it ms k Hllm; cbn.
  - split; [reflexivity | lia].
  - destruct (Hllm it ms ltac:(lia)) as (response & -> & Hcalls).
    destruct (toolCallsOf response) as [| toolCall rest] eqn:E; [congruence |].
    cbn [length Nat.eqb].
    destruct (executeToolCalls tools (toolCall :: rest) _ k) as [ms' k'].
    destruct (IH (S it) ms' k') as [Hres Hit].
    + intros i ms'' Hi. apply Hllm. lia.
    + split; [exact Hres | lia].
Qed.

(** Why the loop fails, when it does: the cap, after exactly the allowed
    number of model invocations, or a model invocation that failed. *)
Lemma whileLoop_failure (remaining : nat) :
  forall (it : nat) (ms : list Message) (k : nat) (e : Thrown),
    result (whileLoop llm tools remaining it ms k) = Throw e ->
    (e = ErrorObj "Max iterations reached"
     /\ iterations (whileLoop llm tools remaining it ms k) = it + remaining)
    \/ (exists i ms', i < it + remaining /\ llm i ms' = Throw e).
Proof.
  induction remaining as [| remaining IH]; intros it ms k e; cbn.
  - intros [= <-]. left. split; [reflexivity | lia].
  - destruct (llm it ms) as [response | e0] eqn:Ellm; cbn.
    + destruct (length (toolCallsOf response) =? 0)%nat; cbn; [discriminate |].
      destruct (executeToolCalls tools (toolCallsOf response) _ k) as [ms' k'].
      intros H. destruct (IH (S it) ms' k' e H) as [[He Hit] | (i & ms'' & Hi & Hthrow)].
      * left. split; [exact He | lia].
      * right. exists i, ms''. split; [lia | exact Hthrow].
    + intros [= <-]. right. exists it, ms. split; [lia | exact Ellm].
Qed.


End LoopFacts.

Section SequenceFacts.

Lemma requestedIds_app (a b : list Message) :
  requestedIds (a ++ b) = (requestedIds a ++ requestedIds b)%list.
Proof. unfold requestedIds. apply flat_map_app. Qed.

Lemma answeredIds_requested (tools : list Tool) (toolCalls : list ToolCall) (id : string) :
  In id (answeredIds tools toolCalls) -> In id (idsOfCalls toolCalls).
Proof.
  unfold answeredIds, idsOfCalls. rewrite !in_flat_map.
  intros (toolCall & Hin & Hid). exists toolCall. split; [| exact Hid].
  apply filter_In in Hin. tauto.
Qed.

Lemma toolResultIds_In (rs : list Message) (content id : string) :
  In (ToolMessage content id) rs -> In id (toolResultIds rs).
Proof.
  intros H. unfold toolResultIds. apply in_flat_map.
  exists (ToolMessage content id). split; [exact H | left; reflexivity].
Qed.

(** In a sequence made of turns, every ToolResult message is preceded by
    an Assistant message that requested its call identifier. *)
Lemma turns_reference (tools : list Tool) (turns : list Turn) :
  Forall (fun t => toolResultIds (turn_results t) = answeredIds tools (turn_calls t)) turns ->
  forall pre content id post,
    flat_map segment turns = (pre ++ ToolMessage content id :: post)%list ->
    In id (requestedIds pre).
Proof.
  induction turns as [| t turns IH]; intros Hok pre content id post Hsplit.
  - destruct pre; discriminate.
  - inversion Hok as [| ? ? Ht Hturns]; subst.
    cbn in Hsplit. unfold segment at 1 in Hsplit. cbn in Hsplit.
    destruct pre as [| m pre]; [discriminate |].
    injection Hsplit as <- Hsplit.
    cbn. apply in_or_app.
    apply app_eq_app in Hsplit.
    destruct Hsplit as (mid & [[Hl Hr] | [Hl Hr]]).
    + (* the ToolResult belongs to this turn *)
      destruct mid as [| m mid].
      * exfalso. apply (IH Hturns [] content id post). symmetry. exact Hr.
      * injection Hr as <- Hr.
        left. apply (answeredIds_requested tools). rewrite <- Ht.
        apply toolResultIds_In with (content := content).
        rewrite Hl. apply in_or_app. right. left. reflexivity.
    + (* the ToolResult belongs to a later turn *)
      right. subst pre. rewrite requestedIds_app. apply in_or_app. right.
      apply (IH Hturns mid content id post Hr).
Qed.

End SequenceFacts.

(* ===================================================================== *)
(** ** The agent loop: the properties of the specification                *)
(* ===================================================================== *)

(** C1. Whatever the model does, the loop invokes it at most 5 times.  If
    every invocation requests tools, the operation fails with the cap
    error after exactly 5 invocations, and no answer is returned.  A
    failure of the operation is never the cap error before the fifth
    invocation: it is the cap error after exactly 5 invocations, or the
    failure of a model invocation. *)
Theorem iteration_cap
    (llm : nat -> list Message -> Completion AIResponse) (tools : list Tool)
    (ms : list Message) (k : nat) :
  maxIterations = 5
  /\ iterations (agentLoop llm tools ms k) <= maxIterations
  /\ ((forall i ms', i < maxIterations -> requestsTools (llm i ms')) ->
      result (agentLoop llm tools ms k)
        = Throw (ErrorObj "Failed to analyze: Max iterations reached")
      /\ iterations (agentLoop llm tools ms k) = maxIterations)
  /\ (forall e, result (agentLoop llm tools ms k) = Throw e ->
      (e = ErrorObj "Failed to analyze: Max iterations reached"
       /\ iterations (agentLoop llm tools ms k) = maxIterations)
      \/ (exists i ms' e0,
             i < maxIterations
             /\ llm i ms' = Throw e0
             /\ e = ErrorObj ("Failed to analyze: " ++ messageOr "Unknown error" e0))).
Proof.
  split; [reflexivity |].
  split; [apply (whileLoop_iterations llm tools maxIterations 0) |].
  split.
  - intros Hllm. unfold agentLoop. cbn [result iterations].
    destruct (whileLoop_never_stops llm tools maxIterations 0 ms k Hllm) as [-> ->].
    split; reflexivity.
  - intros e. unfold agentLoop. cbn [result iterations].
    destruct (result (whileLoop llm tools maxIterations 0 ms k)) as [answer | e0] eqn:E;
      [discriminate |].
    intros [= <-].
    destruct (whileLoop_failure _ _ _ _ _ _ _ E) as [[-> Hit] | (i & ms' & Hi & Hthrow)].
    + left. split; [reflexivity | exact Hit].
    + right. exists i, ms', e0. auto.
Qed.

Lemma iteration_cap_witness :
  result (agentLoop Stub.insistentModel (Stub.tools Stub.downWorld) [HumanMessage "AAPL"] 0)
    = Throw (ErrorObj "Failed to analyze: Max iterations reached")
  /\ iterations (agentLoop Stub.insistentModel (Stub.tools Stub.downWorld)
                   [HumanMessage "AAPL"] 0) = 5.
Proof.
  apply (iteration_cap Stub.insistentModel (Stub.tools Stub.downWorld)
           [HumanMessage "AAPL"] 0).
  intros i ms' _. eexists. split; [reflexivity | discriminate].
Defined.

(** C2, as stated, fails: nothing makes the call identifiers of the model
    distinct.  With a model that requests the news and the company details
    under the one identifier "x", the loop appends two ToolResult messages
    tagged "x", and each of them matches two requested invocations, not
    exactly one. *)
Lemma tool_results_shared_id_counterexample :
  let init := [HumanMessage "AAPL"] in
  let request :=
    AIMessage "" [Stub.call "get_stock_news" "x"; Stub.call "get_company_details" "x"] in
  messages (agentLoop Fixture.sameIdModel (Stub.tools Stub.quietWorld) init 0)
    = (init ++ [request]
         ++ [ToolMessage "No recent news for AAPL" "x";
             ToolMessage "No company details found for AAPL" "x"])%list
  /\ count_occ string_dec (requestedIds [request]) "x" = 2
  /\ count_occ string_dec (requestedIds [request]) "x" <> 1.
Proof.
  cbv zeta. split; [reflexivity |]. split; [reflexivity |]. cbn. lia.
Qed.

(** C2, amended.  The loop only appends to the message sequence, turn after turn: an
    Assistant message that is a response of the model, then the
    ToolResult messages of its answerable invocations, in the order the
    model requested them.  Every ToolResult message appended carries a
    call identifier requested by an Assistant message appended before it;
    where the call identifiers requested so far are pairwise distinct,
    by exactly one invocation. *)
Theorem tool_results_follow_requests
    (llm : nat -> list Message -> Completion AIResponse) (tools : list Tool)
    (init : list Message) (k : nat) :
  (exists turns,
      messages (agentLoop llm tools init k) = (init ++ flat_map segment turns)%list
      /\ Forall (producedTurn llm tools) turns)
  /\ (forall pre content id post,
        messages (agentLoop llm tools init k)
          = (init ++ pre ++ ToolMessage content id :: post)%list ->
        In id (requestedIds pre)
        /\ (NoDup (requestedIds pre) ->
            count_occ string_dec (requestedIds pre) id = 1)).
Proof.
  destruct (whileLoop_turns llm tools maxIterations 0 init k) as (turns & Hmsgs & Hturns).
  split; [exists turns; split; assumption |].
  intros pre content id post Hsplit.
  cbn [agentLoop messages] in Hsplit. rewrite Hmsgs in Hsplit.
  apply app_inv_head in Hsplit.
  assert (Hin : In id (requestedIds pre)).
  { apply (turns_reference tools turns) with (content := content) (post := post);
      [| exact Hsplit].
    eapply Forall_impl; [| exact Hturns].
    intros t (_ & _ & Hids). exact Hids. }
  split; [exact Hin |].
  intros Hnodup.
  apply (proj1 (NoDup_count_occ string_dec _)) with (x := id) in Hnodup.
  apply (proj1 (count_occ_In string_dec _ _)) in Hin.
  lia.
Qed.

Lemma tool_results_follow_requests_witness :
  let request :=
    AIMessage "" [Stub.call "get_stock_news" "call_1";
                  Stub.call "get_company_details" "call_2"] in
  In "call_2" (requestedIds [request; ToolMessage "No recent news for AAPL" "call_1"])
  /\ count_occ string_dec
       (requestedIds [request; ToolMessage "No recent news for AAPL" "call_1"]) "call_2" = 1.
Proof.
  cbv zeta.
  destruct (proj2 (tool_results_follow_requests
                     Fixture.twoToolModel (Stub.tools Stub.quietWorld)
                     [HumanMessage "AAPL"] 0)
              [AIMessage "" [Stub.call "get_stock_news" "call_1";
                             Stub.call "get_company_details" "call_2"];
               ToolMessage "No recent news for AAPL" "call_1"]
              "No company details found for AAPL" "call_2" [] eq_refl)
    as [Hin Hone].
  split; [exact Hin |].
  apply Hone.
  constructor; [| constructor; [intros [] | constructor]].
  intros [H | []]. discriminate.
Defined.

(** C9. A requested invocation that names no registered adapter, or that
    carries no call identifier, is skipped: the tool-execution phase ends
    in the state it would have reached, had the invocation not been
    requested.  What the phase appends are the ToolResult messages of the
    answerable invocations before it, then those of the answerable
    invocations after it, each list in request order, and nothing for the
    skipped one.  The invocation requested right after it is executed
    next: its adapter is called on its arguments, and the text returned
    (or the description of what was thrown) is appended under its call
    identifier before the rest is processed.  The turn does not fail: a
    response that requests nothing but the skipped invocation is followed
    by the next model invocation, on the sequence extended by the
    Assistant message alone. *)
Theorem unanswerable_call_skipped
    (tools : list Tool) (before : list ToolCall) (toolCall : ToolCall)
    (after : list ToolCall) (ms : list Message) (k : nat) :
  findTool tools toolCall = None \/ falsyOptString (tc_id toolCall) = true ->
  executeToolCalls tools (before ++ toolCall :: after) ms k
  = executeToolCalls tools (before ++ after) ms k
  /\ (exists appended,
        fst (executeToolCalls tools (before ++ toolCall :: after) ms k)
        = (ms ++ appended)%list
        /\ Forall isToolResult appended
        /\ toolResultIds appended
           = (answeredIds tools before ++ answeredIds tools after)%list)
  /\ (forall next rest tool id,
        after = next :: rest ->
        findTool tools next = Some tool ->
        tc_id next = Some id ->
        id <> "" ->
        executeToolCalls tools (toolCall :: after) ms k
        = executeToolCalls tools rest
            (ms ++ [ToolMessage
                      (Props.resultText (fst (tool_func tool (tc_args next) k))) id])%list
            (snd (tool_func tool (tc_args next) k)))
  /\ (forall llm first second,
        llm 0 ms = Normal first ->
        toolCallsOf first = [toolCall] ->
        llm 1 (ms ++ [AIMessage (resp_content first) [toolCall]])%list = Normal second ->
        toolCallsOf second = [] ->
        agentLoop llm tools ms k
        = {| result := Normal (resp_content second);
             messages := (ms ++ [AIMessage (resp_content first) [toolCall]])%list;
             iterations := 2;
             requests := k |}).
Proof.
  intros Hskip.
  assert (Hanswer : answerable tools toolCall = false).
  { unfold answerable. destruct Hskip as [-> | ->]; [reflexivity |].
    destruct (findTool tools toolCall); reflexivity. }
  assert (Hsame : forall ms k,
             executeToolCalls tools (before ++ toolCall :: after) ms k
             = executeToolCalls tools (before ++ after) ms k).
  { induction before as [| c before IH]; intros ms0 k0.
    - apply executeToolCalls_skip. exact Hanswer.
    - cbn.
      destruct (findTool tools c) as [tool |]; [| apply IH].
      destruct (tc_id c) as [[| ch id] |]; try apply IH.
      destruct (tool_func tool (tc_args c) k0) as [[result | error] k']; apply IH. }
  split; [apply Hsame |].
  split; [| split].
  - rewrite Hsame, executeToolCalls_appends. cbn [fst].
    exists (fst (executeToolCalls tools (before ++ after) [] k)).
    split; [reflexivity |].
    destruct (executeToolCalls_results tools (before ++ after)%list k) as [Hall Hids].
    split; [exact Hall |].
    rewrite Hids. unfold answeredIds, idsOfCalls.
    rewrite filter_app, flat_map_app. reflexivity.
  - intros next rest tool id -> Htool Hid Hnonempty.
    rewrite (executeToolCalls_skip tools toolCall (next :: rest) ms k Hanswer).
    cbn [executeToolCalls]. rewrite Htool, Hid.
    destruct id as [| ch id]; [congruence |].
    destruct (tool_func tool (tc_args next) k) as [[result | error] k']; reflexivity.
  - intros llm first second Hfirst Hcalls Hsecond Hnone.
    unfold agentLoop, maxIterations.
    cbn [whileLoop]. rewrite Hfirst, Hcalls.
    cbn [length Nat.eqb].
    rewrite (executeToolCalls_skip tools toolCall [] _ k Hanswer).
    cbn [executeToolCalls].
    rewrite Hsecond, Hnone. reflexivity.
Qed.

Lemma unanswerable_call_skipped_witness :
  fst (executeToolCalls (Stub.tools Stub.quietWorld)
         [Stub.call "get_stock_news" "call_1";
          Stub.call "get_weather" "call_2";
          Stub.call "get_company_details" "call_3"]
         [HumanMessage "AAPL"] 0)
  = [HumanMessage "AAPL";
     ToolMessage "No recent news for AAPL" "call_1";
     ToolMessage "No company details found for AAPL" "call_3"].
Proof.
  exact (eq_trans
           (f_equal fst
              (proj1 (unanswerable_call_skipped (Stub.tools Stub.quietWorld)
                        [Stub.call "get_stock_news" "call_1"]
                        (Stub.call "get_weather" "call_2")
                        [Stub.call "get_company_details" "call_3"]
                        [HumanMessage "AAPL"] 0 (or_introl eq_refl))))
           eq_refl).
Defined.

(** C3, as stated, fails: with a model that first requests the news tool
    and then answers, the loop returns the answer, and the message
    sequence has grown by 2, not by 3.  The answer is returned; it is not
    appended. *)
Lemma one_tool_turn_length_counterexample :
  let init := initialMessages Stub.prompt "Analyze AAPL" [] in
  let r := runStockAnalysis (Stub.oneToolModel "get_stock_news") Stub.quietWorld
             Stub.prompt "Analyze AAPL" [] 0 in
  result r = Normal "Here is the analysis."
  /\ length (messages r) = length init + 2
  /\ length (messages r) <> length init + 3.
Proof.
  cbv zeta. split; [reflexivity |]. split; [reflexivity |]. cbn. lia.
Qed.

(** C3, amended.  In an environment whose gateway can be constructed (the
    provider key is configured), let the first response of the model
    request exactly one invocation, of the news tool and with a call
    identifier, and let its second response request none.  Then the loop goes through the
    tool-execution phase exactly once (it invokes the model twice) and
    returns the text of the second response.  At the end the message
    sequence is the initial one followed by the Assistant message of the
    request and the ToolResult message of the News Adapter: its length is
    the initial length plus 2. *)
Theorem one_tool_turn
    (llm : nat -> list Message -> Completion AIResponse) (w : World)
    (SYSTEM_PROMPT input : string) (chatHistory : list ChatTurn) (k : nat)
    (first second : AIResponse) (toolCall : ToolCall) (id : string) :
  constructor w = Normal tt ->
  llm 0 (initialMessages SYSTEM_PROMPT input chatHistory) = Normal first ->
  toolCallsOf first = [toolCall] ->
  tc_name toolCall = "get_stock_news" ->
  tc_id toolCall = Some id ->
  id <> "" ->
  (forall ms, llm 1 ms = Normal second) ->
  toolCallsOf second = [] ->
  exists newsText,
    fst (newsFunc w (tc_args toolCall) k) = Normal newsText
    /\ result (runStockAnalysis llm w SYSTEM_PROMPT input chatHistory k)
       = Normal (resp_content second)
    /\ iterations (runStockAnalysis llm w SYSTEM_PROMPT input chatHistory k) = 2
    /\ messages (runStockAnalysis llm w SYSTEM_PROMPT input chatHistory k)
       = (initialMessages SYSTEM_PROMPT input chatHistory
            ++ [AIMessage (resp_content first) [toolCall]; ToolMessage newsText id])%list
    /\ length (messages (runStockAnalysis llm w SYSTEM_PROMPT input chatHistory k))
       = length (initialMessages SYSTEM_PROMPT input chatHistory) + 2.
Proof.
  intros Hkey Hfirst Hcalls Hname Hid Hnonempty Hsecond Hnone.
  destruct (newsFunc_total w (tc_args toolCall) k) as (newsText & k' & Hnews).
  exists newsText.
  split; [rewrite Hnews; reflexivity |].
  assert (Hrun :
    runStockAnalysis llm w SYSTEM_PROMPT input chatHistory k
    = {| result := Normal (resp_content second);
         messages := (initialMessages SYSTEM_PROMPT input chatHistory
                        ++ [AIMessage (resp_content first) [toolCall];
                            ToolMessage newsText id])%list;
         iterations := 2;
         requests := k' |}).
  { unfold runStockAnalysis, createStockDataTool, createNewsDataTool,
      createCompanyDetailsTool.
    rewrite Hkey.
    unfold agentLoop, maxIterations.
    cbn [whileLoop]. rewrite Hfirst, Hcalls.
    cbn [length Nat.eqb executeToolCalls].
    unfold findTool. rewrite Hname. cbn [find tool_name String.eqb Ascii.eqb Bool.eqb].
    rewrite Hid.
    destruct id as [| ch id]; [congruence |].
    cbn [tool_func]. rewrite Hnews.
    rewrite Hsecond, Hnone. cbn.
    rewrite <- app_assoc. reflexivity. }
  rewrite Hrun. cbn [result iterations messages].
  repeat split.
  rewrite length_app. reflexivity.
Qed.

Lemma one_tool_turn_witness :
  exists newsText,
    fst (newsFunc Stub.quietWorld (Stub.tickerArgs "AAPL") 0) = Normal newsText
    /\ result (runStockAnalysis (Stub.oneToolModel "get_stock_news") Stub.quietWorld
                 Stub.prompt "Analyze AAPL" [] 0)
       = Normal "Here is the analysis."
    /\ iterations (runStockAnalysis (Stub.oneToolModel "get_stock_news") Stub.quietWorld
                     Stub.prompt "Analyze AAPL" [] 0) = 2
    /\ messages (runStockAnalysis (Stub.oneToolModel "get_stock_news") Stub.quietWorld
                   Stub.prompt "Analyze AAPL" [] 0)
       = (initialMessages Stub.prompt "Analyze AAPL" []
            ++ [AIMessage "" [Stub.call "get_stock_news" "call_1"];
                ToolMessage newsText "call_1"])%list
    /\ length (messages (runStockAnalysis (Stub.oneToolModel "get_stock_news")
                           Stub.quietWorld Stub.prompt "Analyze AAPL" [] 0))
       = length (initialMessages Stub.prompt "Analyze AAPL" []) + 2.
Proof.
  apply (one_tool_turn (Stub.oneToolModel "get_stock_news") Stub.quietWorld
           Stub.prompt "Analyze AAPL" [] 0
           {| resp_content := "";
              resp_tool_calls := Some [Stub.call "get_stock_news" "call_1"] |}
           {| resp_content := "Here is the analysis."; resp_tool_calls := None |}
           (Stub.call "get_stock_news" "call_1") "call_1");
    try reflexivity.
  discriminate.
Defined.






(** C5, as stated, fails: the aggregates request is answered 503, or with
    an empty result set, and the caller still receives an analysis. *)
Lemma aggregates_failure_counterexample :
  fst (getStockAggregates Stub.downWorld "AAPL" 30 0)
    = Throw (ErrorObj "Massive API failed: 503 Service Unavailable")
  /\ result (runStockAnalysis (Stub.oneToolModel "get_stock_data") Stub.downWorld
               Stub.prompt "Analyze AAPL" [] 0)
     = Normal "Here is the analysis."
  /\ fst (getStockAggregates Stub.quietWorld "AAPL" 30 0)
     = Throw (ErrorObj "No stock data available for AAPL")
  /\ result (runStockAnalysis (Stub.oneToolModel "get_stock_data") Stub.quietWorld
               Stub.prompt "Analyze AAPL" [] 0)
     = Normal "Here is the analysis.".
Proof. repeat split. Qed.

(** C5, amended.  When the aggregates request is answered with a
    non-success status or with an empty result set, the gateway throws,
    and the Stock Data Adapter catches it: it returns the text
    "Error fetching stock data for X: ..." with the message of the error.
    The loop appends that text as the ToolResult message of the
    invocation, under its call identifier, and invokes the model again on
    the sequence so extended: if the model then answers, the answer is what
    the caller receives.  The turn fails only at the iteration cap or when
    a model invocation fails. *)
Theorem aggregates_failure_absorbed
    (w : World) (args : Args) (k : nat) (r : Response (option (list StockAggregate)))
    (message : string) :
  aggs_range w k (toUpperCase (arg_ticker args)) 30 = Responded r ->
  (ok r = false
   /\ (exists body, text r = Normal body)
   /\ message = "Massive API failed: " ++ showNat (status r) ++ " " ++ statusText r)
  \/ (ok r = true
      /\ (json_body r = Normal None \/ json_body r = Normal (Some []))
      /\ message = "No stock data available for " ++ toUpperCase (arg_ticker args)) ->
  let errorText := "Error fetching stock data for " ++ arg_ticker args ++ ": " ++ message in
  fst (getStockAggregates w (toUpperCase (arg_ticker args)) 30 k) = Throw (ErrorObj message)
  /\ fst (stockDataFunc w args k) = Normal errorText
  /\ (forall toolCall id rest ms,
        tc_name toolCall = "get_stock_data" ->
        tc_args toolCall = args ->
        tc_id toolCall = Some id ->
        id <> "" ->
        executeToolCalls (Stub.tools w) (toolCall :: rest) ms k
        = executeToolCalls (Stub.tools w) rest (ms ++ [ToolMessage errorText id])%list (S k))
  /\ (forall llm SYSTEM_PROMPT input chatHistory first second toolCall id,
        let init := initialMessages SYSTEM_PROMPT input chatHistory in
        constructor w = Normal tt ->
        llm 0 init = Normal first ->
        toolCallsOf first = [toolCall] ->
        tc_name toolCall = "get_stock_data" ->
        tc_args toolCall = args ->
        tc_id toolCall = Some id ->
        id <> "" ->
        llm 1 (init ++ [AIMessage (resp_content first) [toolCall];
                        ToolMessage errorText id])%list = Normal second ->
        toolCallsOf second = [] ->
        runStockAnalysis llm w SYSTEM_PROMPT input chatHistory k
        = {| result := Normal (resp_content second);
             messages := (init ++ [AIMessage (resp_content first) [toolCall];
                                   ToolMessage errorText id])%list;
             iterations := 2;
             requests := S k |})
  /\ (forall llm tools ms k0 e,
        result (agentLoop llm tools ms k0) = Throw e ->
        (e = ErrorObj "Failed to analyze: Max iterations reached"
         /\ iterations (agentLoop llm tools ms k0) = maxIterations)
        \/ (exists i ms' e0,
               llm i ms' = Throw e0
               /\ e = ErrorObj ("Failed to analyze: " ++ messageOr "Unknown error" e0))).
Proof.
  intros Hresp Hfail errorText.
  assert (Hgateway :
    getStockAggregates w (toUpperCase (arg_ticker args)) 30 k
    = (Throw (ErrorObj message), S k)).
  { unfold getStockAggregates, bind, fetchAPI. rewrite Hresp.
    destruct Hfail as [(Hok & (body & Hbody) & ->) | (Hok & Hbody & ->)].
    - rewrite Hok, Hbody. reflexivity.
    - rewrite Hok. destruct Hbody as [-> | ->]; reflexivity. }
  assert (Hadapter : stockDataFunc w args k = (Normal errorText, S k)).
  { unfold stockDataFunc, tryCatch, bind. rewrite Hgateway. reflexivity. }
  assert (Hexec : forall toolCall id rest ms,
    tc_name toolCall = "get_stock_data" ->
    tc_args toolCall = args ->
    tc_id toolCall = Some id ->
    id <> "" ->
    executeToolCalls (Stub.tools w) (toolCall :: rest) ms k
    = executeToolCalls (Stub.tools w) rest (ms ++ [ToolMessage errorText id])%list (S k)).
  { intros toolCall id rest ms Hname Hargs Hid Hnonempty.
    cbn [executeToolCalls]. unfold findTool. rewrite Hname.
    cbn [Stub.tools find tool_name String.eqb Ascii.eqb Bool.eqb].
    rewrite Hid. destruct id as [| ch id]; [congruence |].
    cbn [tool_func]. rewrite Hargs, Hadapter. reflexivity. }
  split; [rewrite Hgateway; reflexivity |].
  split; [rewrite Hadapter; reflexivity |].
  split; [exact Hexec |].
  split.
  - intros llm SYSTEM_PROMPT input chatHistory first second toolCall id init
      Hkey Hfirst Hcalls Hname Hargs Hid Hnonempty Hsecond Hnone.
    unfold runStockAnalysis, createStockDataTool, createNewsDataTool,
      createCompanyDetailsTool.
    rewrite Hkey.
    unfold agentLoop, maxIterations.
    cbn [whileLoop]. fold init. rewrite Hfirst, Hcalls.
    cbn [length Nat.eqb].
    change [{| tool_name := "get_stock_data"; tool_func := stockDataFunc w |};
            {| tool_name := "get_stock_news"; tool_func := newsFunc w |};
            {| tool_name := "get_company_details"; tool_func := companyDetailsFunc w |}]
      with (Stub.tools w).
    rewrite (Hexec toolCall id [] _ Hname Hargs Hid Hnonempty).
    cbn [executeToolCalls].
    rewrite <- app_assoc. cbn [app].
    rewrite Hsecond, Hnone. reflexivity.
  - intros llm tools ms k0 e. unfold agentLoop. cbn [result iterations].
    destruct (result (whileLoop llm tools maxIterations 0 ms k0)) as [answer | e0] eqn:E;
      [discriminate |].
    intros [= <-].
    destruct (whileLoop_failure _ _ _ _ _ _ _ E) as [[-> Hit] | (i & ms' & Hi & Hthrow)].
    + left. split; [reflexivity | exact Hit].
    + right. exists i, ms', e0. auto.
Qed.

Lemma aggregates_failure_absorbed_witness :
  runStockAnalysis (Stub.oneToolModel "get_stock_data") Stub.downWorld
    Stub.prompt "Analyze AAPL" [] 0
  = {| result := Normal "Here is the analysis.";
       messages :=
         (initialMessages Stub.prompt "Analyze AAPL" []
            ++ [AIMessage "" [Stub.call "get_stock_data" "call_1"];
                ToolMessage
                  "Error fetching stock data for AAPL: Massive API failed: 503 Service Unavailable"
                  "call_1"])%list;
       iterations := 2;
       requests := 1 |}.
Proof.
  apply (proj1 (proj2 (proj2 (proj2
           (aggregates_failure_absorbed Stub.downWorld (Stub.tickerArgs "AAPL") 0
              _ "Massive API failed: 503 Service Unavailable" eq_refl
              (or_introl (conj eq_refl (conj (ex_intro _ _ eq_refl) eq_refl)))))))
           (Stub.oneToolModel "get_stock_data") Stub.prompt "Analyze AAPL" []
           {| resp_content := "";
              resp_tool_calls := Some [Stub.call "get_stock_data" "call_1"] |}
           {| resp_content := "Here is the analysis."; resp_tool_calls := None |}
           (Stub.call "get_stock_data" "call_1") "call_1");
    try reflexivity.
  discriminate.
Defined.

(* ===================================================================== *)
(** ** The ticker gate                                                    *)
(* ===================================================================== *)

Section RegexFacts.

Lemma matchesNothing_not_nullable (r : regex) :
  matchesNothing r = true -> nullable r = false.
Proof.
  induction r as [| | p | r1 IH1 r2 IH2 | r1 IH1 r2 IH2]; cbn; try discriminate.
  - reflexivity.
  - intros H. apply orb_true_iff in H. destruct H as [H | H].
    + rewrite (IH1 H). reflexivity.
    + rewrite (IH2 H). apply andb_false_r.
  - intros H. apply andb_true_iff in H. destruct H as [H1 H2].
    rewrite (IH1 H1), (IH2 H2). reflexivity.
Qed.

Lemma matchesNothing_deriv (ch : ascii) (r : regex) :
  matchesNothing r = true -> matchesNothing (deriv ch r) = true.
Proof.
  induction r as [| | p | r1 IH1 r2 IH2 | r1 IH1 r2 IH2]; cbn; try discriminate.
  - reflexivity.
  - intros H. apply orb_true_iff in H.
    destruct (nullable r1) eqn:N; cbn.
    + destruct H as [H | H].
      * rewrite (matchesNothing_not_nullable r1 H) in N. discriminate.
      * rewrite H, (IH2 H). rewrite orb_true_r. reflexivity.
    + destruct H as [H | H].
      * rewrite (IH1 H). reflexivity.
      * rewrite H. apply orb_true_r.
  - intros H. apply andb_true_iff in H. destruct H as [H1 H2].
    rewrite (IH1 H1), (IH2 H2). reflexivity.
Qed.

(** Once the residual matches nothing, the rest of the string is of no
    account. *)
Lemma test_matchesNothing (s : string) :
  forall r, matchesNothing r = true -> test r s = false.
Proof.
  induction s as [| ch s IH]; intros r H; cbn.
  - apply matchesNothing_not_nullable. exact H.
  - apply IH. apply matchesNothing_deriv. exact H.
Qed.

Lemma upper_not_separator (ch : ascii) :
  isUpper ch = true -> isDotOrDash ch = false.
Proof.
  destruct ch as [[] [] [] [] [] [] [] []]; cbn; intros H; try reflexivity; discriminate H.
Qed.

Lemma separator_cases (ch : ascii) :
  isDotOrDash ch = true -> ch = "."%char \/ ch = "-"%char.
Proof.
  unfold isDotOrDash. intros H. apply orb_true_iff in H.
  destruct H as [H | H]; apply Ascii.eqb_eq in H; auto.
Qed.

End RegexFacts.

Ltac use_classes :=
  repeat match goal with
         | H : isUpper ?c = true |- context [isUpper ?c] => rewrite H
         | H : isUpper ?c = false |- context [isUpper ?c] => rewrite H
         | H : isDotOrDash ?c = true |- context [isDotOrDash ?c] => rewrite H
         | H : isDotOrDash ?c = false |- context [isDotOrDash ?c] => rewrite H
         end.

(** Split a string of known shape after its first [n] characters and check
    the format on the two parts. *)
Ltac format_at n :=
  match goal with
  | |- tickerFormat _ ?s =>
      exists (substring 0 n s), (substring n (String.length s) s);
      cbn [substring String.length];
      split; [reflexivity |];
      split; [cbn; lia |];
      split; [cbn; use_classes; reflexivity |];
      first [ left; reflexivity
            | right; eexists; eexists;
              split; [reflexivity |];
              split; [apply separator_cases; assumption | assumption] ]
  end.

Ltac format_found :=
  first [ format_at 1 | format_at 2 | format_at 3 | format_at 4 | format_at 5 | format_at 6 ].

(** Read one more character of the string under test. *)
Ltac regex_step :=
  match goal with
  | |- test ?r ?s = true -> _ =>
      first
        [ rewrite (test_matchesNothing s r) by reflexivity; discriminate
        | let c := fresh "c" in
          let U := fresh "U" in
          let D := fresh "D" in
          destruct s as [| c s];
          [ cbn; first [ discriminate | intros _; format_found ]
          | cbn [test];
            destruct (isUpper c) eqn:U;
            [ pose proof (upper_not_separator c U) as D | destruct (isDotOrDash c) eqn:D ];
            cbn; use_classes; cbn ] ]
  end.

Lemma tickerRegex_sound (s : string) :
  test tickerRegex s = true -> tickerFormat isUpper s.
Proof.
  unfold tickerRegex, Repeat, Opt. cbn [exactly atMost Nat.sub].
  do 10 (try regex_step).
Qed.

Lemma allChars_cons (p : ascii -> bool) (ch : ascii) (s : string) :
  allChars p (String ch s) = true -> p ch = true /\ allChars p s = true.
Proof. cbn. intros H. apply andb_true_iff in H. exact H. Qed.

Lemma tickerRegex_complete (s : string) :
  tickerFormat isUpper s -> test tickerRegex s = true.
Proof.
  intros (letters & suffix & -> & [Hmin Hmax] & Hall & Hsuffix).
  assert (Hsuffix' :
            suffix = ""
            \/ exists sep last,
                 suffix = String sep (String last "")
                 /\ isUpper sep = false /\ isDotOrDash sep = true /\ isUpper last = true).
  { destruct Hsuffix as [-> | (sep & last & -> & [-> | ->] & Hlast)]; [left; reflexivity | |];
      right; eexists; eexists; repeat split; assumption. }
  clear Hsuffix.
  do 7 (try (destruct letters as [| ?c letters];
             [ try (cbn in Hmin; lia)
             | apply allChars_cons in Hall; destruct Hall as [?U Hall] ])).
  all: try (cbn in Hmax; lia).
  all: destruct Hsuffix' as [-> | (sep & last & -> & Usep & Dsep & Ulast)].
  all: cbn; use_classes; cbn; repeat (use_classes; cbn); reflexivity.
Qed.

Section CaseFacts.

Lemma isUpper_upperChar (ch : ascii) : isUpper (upperChar ch) = isLetter ch.
Proof. destruct ch as [[] [] [] [] [] [] [] []]; reflexivity. Qed.

Lemma isDotOrDash_upperChar (ch : ascii) : isDotOrDash (upperChar ch) = isDotOrDash ch.
Proof. destruct ch as [[] [] [] [] [] [] [] []]; reflexivity. Qed.

Lemma toUpperCase_app (a b : string) :
  toUpperCase (a ++ b) = toUpperCase a ++ toUpperCase b.
Proof. induction a as [| ch a IH]; cbn; [reflexivity | rewrite IH; reflexivity]. Qed.

Lemma toUpperCase_length (s : string) :
  String.length (toUpperCase s) = String.length s.
Proof. induction s as [| ch s IH]; cbn; [reflexivity | rewrite IH; reflexivity]. Qed.

Lemma toUpperCase_split (a : string) :
  forall s b,
    toUpperCase s = a ++ b ->
    exists a' b', s = a' ++ b' /\ toUpperCase a' = a /\ toUpperCase b' = b.
Proof.
  induction a as [| ch a IH]; intros s b H.
  - exists "", s. repeat split. exact H.
  - destruct s as [| ch' s]; [discriminate |].
    cbn in H. injection H as Hch H.
    destruct (IH s b H) as (a' & b' & -> & Ha & Hb).
    exists (String ch' a'), b'. cbn. rewrite Ha, Hch. repeat split. exact Hb.
Qed.

Lemma allChars_toUpperCase (s : string) :
  allChars isUpper (toUpperCase s) = allChars isLetter s.
Proof.
  induction s as [| ch s IH]; cbn; [reflexivity |].
  rewrite isUpper_upperChar, IH. reflexivity.
Qed.

Lemma separator_iff (ch : ascii) :
  isDotOrDash ch = true <-> ch = "."%char \/ ch = "-"%char.
Proof.
  split; [apply separator_cases |].
  intros [-> | ->]; reflexivity.
Qed.

(** The format of the upper-cased ticker, read on the ticker as typed. *)
Lemma tickerFormat_toUpperCase (s : string) :
  tickerFormat isUpper (toUpperCase s) <-> tickerFormat isLetter s.
Proof.
  split.
  - intros (letters & suffix & Hs & Hlen & Hall & Hsuffix).
    destruct (toUpperCase_split letters s suffix Hs) as (letters' & suffix' & -> & <- & <-).
    exists letters', suffix'.
    split; [reflexivity |].
    split; [rewrite <- toUpperCase_length; exact Hlen |].
    split; [rewrite <- allChars_toUpperCase; exact Hall |].
    destruct Hsuffix as [Hempty | (sep & last & Hshape & Hsep & Hlast)].
    + left. destruct suffix'; [reflexivity | discriminate].
    + right.
      destruct suffix' as [| sep' [| last' [| ? ?]]]; try discriminate.
      cbn in Hshape. injection Hshape as <- <-.
      exists sep', last'. split; [reflexivity |].
      split.
      * apply separator_iff. rewrite <- isDotOrDash_upperChar.
        apply separator_iff. exact Hsep.
      * rewrite <- isUpper_upperChar. exact Hlast.
  - intros (letters & suffix & -> & Hlen & Hall & Hsuffix).
    exists (toUpperCase letters), (toUpperCase suffix).
    split; [apply toUpperCase_app |].
    split; [rewrite toUpperCase_length; exact Hlen |].
    split; [rewrite allChars_toUpperCase; exact Hall |].
    destruct Hsuffix as [-> | (sep & last & -> & Hsep & Hlast)].
    + left. reflexivity.
    + right. exists (upperChar sep), (upperChar last).
      split; [reflexivity |].
      split.
      * apply separator_iff. rewrite isDotOrDash_upperChar.
        apply separator_iff. exact Hsep.
      * rewrite isUpper_upperChar. exact Hlast.
Qed.

Lemma tickerFormat_nonempty (letter : ascii -> bool) :
  ~ tickerFormat letter "".
Proof.
  intros (letters & suffix & Hs & [Hmin _] & _).
  destruct letters; [cbn in Hmin; lia | discriminate].
Qed.

End CaseFacts.




(* ===================================================================== *)
(** ** Further properties: the gateway                                    *)
(* ===================================================================== *)

Import Router Routes PageState Sidebar Props.

Section GatewayMore.

Variable w : World.

(** A failed request makes [fetchAPI] throw. *)
Lemma fetchAPI_failed {T} (endpoint : nat -> Fetched T) (k : nat) :
  failed (endpoint k) -> exists e, fetchAPI endpoint k = (Throw e, S k).
Proof.
  unfold failed, fetchAPI.
  destruct (endpoint k) as [e | r].
  - intros _. exists e. reflexivity.
  - intros [Hok | [e He]].
    + rewrite Hok. cbn. destruct (text r) as [body | e]; eauto.
    + destruct (ok r); cbn.
      * exists e. rewrite He. reflexivity.
      * destruct (text r) as [body | e']; eauto.
Qed.

Lemma fetchAPI_delivers {T} (endpoint : nat -> Fetched T) (k : nat) (r : Response T) (body : T) :
  endpoint k = Responded r -> ok r = true -> json_body r = Normal body ->
  fetchAPI endpoint k = (Normal body, S k).
Proof.
  intros Hr Hok Hbody. unfold fetchAPI. rewrite Hr, Hok, Hbody. reflexivity.
Qed.

End GatewayMore.

(** The request counter after a gateway method. *)
Lemma gateway_request_count (w : World) (ticker : string) (a b : Q) (order : Order) (k : nat) :
  snd (getStockAggregates w ticker a k) = S k
  /\ snd (getTickerDetails w ticker k) = S k
  /\ snd (getNews w ticker a order k) = S k
  /\ snd (getPreviousClose w ticker k) = S k
  /\ snd (getRSI w ticker a b k) = S k
  /\ snd (getSMA w ticker a b k) = S k.
Proof.
  unfold getStockAggregates, getTickerDetails, getNews, getPreviousClose, getRSI, getSMA,
    tryCatch, bind, fetchAPI.
  repeat split.
  - destruct (aggs_range w k ticker a) as [e | r]; cbn; [reflexivity |].
    destruct (ok r); cbn.
    + destruct (json_body r) as [[[| bar bars] |] | e]; reflexivity.
    + destruct (text r); reflexivity.
  - destruct (reference_tickers w k ticker) as [e | r]; cbn; [reflexivity |].
    destruct (ok r); cbn; [destruct (json_body r) | destruct (text r)]; reflexivity.
  - destruct (reference_news w k ticker a order) as [e | r]; cbn; [reflexivity |].
    destruct (ok r); cbn; [destruct (json_body r) | destruct (text r)]; reflexivity.
  - destruct (aggs_prev w k ticker) as [e | r]; cbn; [reflexivity |].
    destruct (ok r); cbn; [destruct (json_body r) | destruct (text r)]; reflexivity.
  - destruct (indicators_rsi w k ticker a b) as [e | r]; cbn; [reflexivity |].
    destruct (ok r); cbn; [destruct (json_body r) | destruct (text r)]; reflexivity.
  - destruct (indicators_sma w k ticker a b) as [e | r]; cbn; [reflexivity |].
    destruct (ok r); cbn; [destruct (json_body r) | destruct (text r)]; reflexivity.
Qed.

(** X1. Every gateway method issues exactly one provider request, whatever
    the provider answers: nothing is retried and nothing is skipped. *)
Theorem gateway_single_request (w : World) (ticker : string) (a b : Q) (order : Order) (k : nat) :
  snd (getStockAggregates w ticker a k) = S k
  /\ snd (getTickerDetails w ticker k) = S k
  /\ snd (getNews w ticker a order k) = S k
  /\ snd (getPreviousClose w ticker k) = S k
  /\ snd (getRSI w ticker a b k) = S k
  /\ snd (getSMA w ticker a b k) = S k.
Proof. apply gateway_request_count. Qed.

(** X2. The getters of the non-critical data swallow every failure: when
    the request is rejected, answered with a non-success status or with an
    unreadable body, [getNews], [getRSI] and [getSMA] return the empty
    sequence and [getTickerDetails] and [getPreviousClose] return nothing;
    none of them throws. *)
Theorem gateway_swallows_failures (w : World) (ticker : string) (a b : Q) (order : Order)
    (k : nat) :
  (failed (reference_news w k ticker a order) ->
   fst (getNews w ticker a order k) = Normal [])
  /\ (failed (indicators_rsi w k ticker a b) -> fst (getRSI w ticker a b k) = Normal [])
  /\ (failed (indicators_sma w k ticker a b) -> fst (getSMA w ticker a b k) = Normal [])
  /\ (failed (reference_tickers w k ticker) -> fst (getTickerDetails w ticker k) = Normal None)
  /\ (failed (aggs_prev w k ticker) -> fst (getPreviousClose w ticker k) = Normal None).
Proof.
  repeat split; intros H.
  - destruct (fetchAPI_failed (fun n => reference_news w n ticker a order) k H) as [e He].
    unfold getNews, tryCatch, bind. rewrite He. reflexivity.
  - destruct (fetchAPI_failed (fun n => indicators_rsi w n ticker a b) k H) as [e He].
    unfold getRSI, tryCatch, bind. rewrite He. reflexivity.
  - destruct (fetchAPI_failed (fun n => indicators_sma w n ticker a b) k H) as [e He].
    unfold getSMA, tryCatch, bind. rewrite He. reflexivity.
  - destruct (fetchAPI_failed (fun n => reference_tickers w n ticker) k H) as [e He].
    unfold getTickerDetails, tryCatch, bind. rewrite He. reflexivity.
  - destruct (fetchAPI_failed (fun n => aggs_prev w n ticker) k H) as [e He].
    unfold getPreviousClose, tryCatch, bind. rewrite He. reflexivity.
Qed.

Lemma gateway_swallows_failures_witness :
  fst (getNews Stub.downWorld "AAPL" 5 desc 0) = Normal []
  /\ fst (getTickerDetails Stub.downWorld "AAPL" 0) = Normal None.
Proof.
  split.
  - apply (proj1 (gateway_swallows_failures Stub.downWorld "AAPL" 5 1 desc 0)).
    left. reflexivity.
  - apply (proj1 (proj2 (proj2 (proj2
             (gateway_swallows_failures Stub.downWorld "AAPL" 5 1 desc 0))))).
    left. reflexivity.
Defined.

(** A series that [getStockAggregates] returns is what the provider sent,
    and it is not empty. *)
Lemma aggregates_nonempty_helper (w : World) (ticker : string) (days : Q) (k : nat)
    (bars : list StockAggregate) :
  fst (getStockAggregates w ticker days k) = Normal bars ->
  bars <> []
  /\ exists r,
       aggs_range w k ticker days = Responded r
       /\ ok r = true
       /\ json_body r = Normal (Some bars).
Proof.
  unfold getStockAggregates, bind, fetchAPI.
  destruct (aggs_range w k ticker days) as [e | r]; cbn; [discriminate |].
  destruct (ok r) eqn:Hok; cbn.
  - destruct (json_body r) as [[[| bar rest] |] | e] eqn:Hbody; cbn; try discriminate.
    intros [= <-]. split; [discriminate |].
    exists r. auto.
  - destruct (text r); discriminate.
Qed.

(** X3. [getStockAggregates] returns a series only when the provider
    answered with a success status and a non-empty result set, and then it
    returns that result set unchanged: a series it returns is never
    empty. *)
Theorem aggregates_never_empty (w : World) (ticker : string) (days : Q) (k : nat)
    (bars : list StockAggregate) :
  fst (getStockAggregates w ticker days k) = Normal bars ->
  bars <> []
  /\ exists r,
       aggs_range w k ticker days = Responded r
       /\ ok r = true
       /\ json_body r = Normal (Some bars).
Proof. apply aggregates_nonempty_helper. Qed.

Lemma aggregates_never_empty_witness :
  [Stub.bar 95; Stub.bar 100] <> []
  /\ exists r,
       aggs_range Stub.scenarioWorld 0 "AAPL" 30 = Responded r
       /\ ok r = true
       /\ json_body r = Normal (Some [Stub.bar 95; Stub.bar 100]).
Proof.
  apply (aggregates_never_empty Stub.scenarioWorld "AAPL" 30 0). reflexivity.
Defined.

(* ===================================================================== *)
(** ** Further properties: the agent loop                                 *)
(* ===================================================================== *)

Section AgentMore.

Variable llm : nat -> list Message -> Completion AIResponse.
Variable tools : list Tool.

(** An answer of the loop is the text of a model response that requests no
    tool, and the loop stops at that response. *)
Lemma whileLoop_answer (remaining : nat) :
  forall (it : nat) (ms : list Message) (k : nat) (answer : string),
    result (whileLoop llm tools remaining it ms k) = Normal answer ->
    exists i ms' response,
      it <= i < it + remaining
      /\ llm i ms' = Normal response
      /\ toolCallsOf response = []
      /\ answer = resp_content response
      /\ iterations (whileLoop llm tools remaining it ms k) = S i.
Proof.
  induction remaining as [| remaining IH]; intros it ms k answer; cbn.
  - discriminate.
  - destruct (llm it ms) as [response | e] eqn:Ellm; cbn; [| discriminate].
    destruct (toolCallsOf response) as [| toolCall rest] eqn:Ecalls; cbn [length Nat.eqb].
    + cbn. intros [= <-]. exists it, ms, response. repeat split; try lia; assumption.
    + destruct (executeToolCalls tools (toolCall :: rest) _ k) as [ms1 k1].
      intros H. destruct (IH (S it) ms1 k1 answer H) as (i & ms' & r & Hi & Hr & Hc & Ha & Hit).
      exists i, ms', r. repeat split; try lia; assumption.
Qed.

Lemma requestedIds_plain (ms : list Message) :
  Forall plainMessage ms -> requestedIds ms = [].
Proof.
  induction 1 as [| m ms Hm _ IH]; [reflexivity |].
  change (m :: ms) with ([m] ++ ms)%list.
  rewrite requestedIds_app, IH, app_nil_r.
  destruct m as [c | c | c [| toolCall rest] | c id]; cbn in *; try reflexivity; contradiction.
Qed.

Lemma plain_not_toolResult (ms pre post : list Message) (content id : string) :
  Forall plainMessage ms -> ms <> (pre ++ ToolMessage content id :: post)%list.
Proof.
  intros Hall Heq. rewrite Heq in Hall.
  apply Forall_app in Hall. destruct Hall as [_ Hall].
  inversion Hall as [| ? ? Hm _]. exact Hm.
Qed.

Lemma initialMessages_plain (SYSTEM_PROMPT input : string) (chatHistory : list ChatTurn) :
  Forall plainMessage (initialMessages SYSTEM_PROMPT input chatHistory).
Proof.
  unfold initialMessages. cbn. constructor; [exact I |].
  apply Forall_app. split.
  - induction chatHistory as [| msg rest IH]; cbn; constructor; [| exact IH].
    unfold historyMessage. destruct (role msg =? "user"); exact I.
  - constructor; [exact I | constructor].
Qed.

(** In a sequence that starts from plain messages, each ToolResult message
    comes after the initial messages and after an Assistant message that
    requested its call identifier. *)
Lemma agentLoop_references (init : list Message) (k : nat) :
  Forall plainMessage init ->
  forall pre content id post,
    messages (agentLoop llm tools init k) = (pre ++ ToolMessage content id :: post)%list ->
    In id (requestedIds pre) /\ length init <= length pre.
Proof.
  intros Hplain pre content id post Hsplit.
  destruct (whileLoop_turns llm tools maxIterations 0 init k) as (turns & Hmsgs & Hturns).
  cbn [agentLoop messages] in Hsplit. rewrite Hmsgs in Hsplit.
  apply app_eq_app in Hsplit.
  destruct Hsplit as (mid & [[Hinit Hrest] | [Hpre Hrest]]).
  - destruct mid as [| m mid].
    + rewrite app_nil_r in Hinit. subst pre. cbn in Hrest.
      exfalso.
      assert (Hin : In id (requestedIds [])).
      { apply (turns_reference tools turns) with (content := content) (post := post).
        - eapply Forall_impl; [| exact Hturns]. intros t (_ & _ & Hids). exact Hids.
        - symmetry. exact Hrest. }
      exact Hin.
    + injection Hrest as <- _.
      exfalso. exact (plain_not_toolResult init pre mid content id Hplain Hinit).
  - subst pre. split.
    + rewrite requestedIds_app. apply in_or_app. right.
      apply (turns_reference tools turns) with (content := content) (post := post);
        [| exact Hrest].
      eapply Forall_impl; [| exact Hturns]. intros t (_ & _ & Hids). exact Hids.
    + rewrite length_app. lia.
Qed.

End AgentMore.

(** X4. Without the provider key (missing or empty) [runStockAnalysis]
    throws "MASSIVE_API_KEY is not configured in environment variables"
    as it is, not wrapped in "Failed to analyze: ...", before the message
    sequence is built: the model is not invoked and no request is
    issued.  Through the router the caller reads
    "Failed to analyze T: MASSIVE_API_KEY is not configured ...". *)
Theorem missing_key_fails_before_the_loop
    (llm : nat -> list Message -> Completion AIResponse) (w : World)
    (SYSTEM_PROMPT input : string) (chatHistory : list ChatTurn) (k : nat) :
  falsyOptString (MASSIVE_API_KEY w) = true ->
  runStockAnalysis llm w SYSTEM_PROMPT input chatHistory k
  = {| result := Throw (ErrorObj "MASSIVE_API_KEY is not configured in environment variables");
       messages := []; iterations := 0; requests := k |}
  /\ forall ticker upper,
       parseTicker ticker = Some upper ->
       analyze llm w SYSTEM_PROMPT ticker k
       = (Replied (Throw (ErrorObj ("Failed to analyze " ++ upper
            ++ ": MASSIVE_API_KEY is not configured in environment variables"))), k).
Proof.
  intros Hkey.
  assert (Hrun : forall input' history',
             runStockAnalysis llm w SYSTEM_PROMPT input' history' k
             = {| result := Throw (ErrorObj
                    "MASSIVE_API_KEY is not configured in environment variables");
                  messages := []; iterations := 0; requests := k |}).
  { intros input' history'.
    unfold runStockAnalysis, createStockDataTool, constructor. rewrite Hkey. reflexivity. }
  split; [apply Hrun |].
  intros ticker upper Hparse. unfold analyze. rewrite Hparse, Hrun. reflexivity.
Qed.

Lemma missing_key_fails_before_the_loop_witness :
  iterations (runStockAnalysis Stub.insistentModel Fixture.keylessWorld Stub.prompt
                "Analyze AAPL" [] 0) = 0
  /\ fst (analyze Stub.insistentModel Fixture.keylessWorld Stub.prompt "aapl" 0)
     = Replied (Throw (ErrorObj
         "Failed to analyze AAPL: MASSIVE_API_KEY is not configured in environment variables")).
Proof.
  destruct (missing_key_fails_before_the_loop Stub.insistentModel Fixture.keylessWorld
              Stub.prompt "Analyze AAPL" [] 0 eq_refl) as [Hrun Hrouter].
  split.
  - rewrite Hrun. reflexivity.
  - rewrite (Hrouter "aapl" "AAPL" eq_refl). reflexivity.
Defined.

(** The run in which the model answers at once. *)
Lemma direct_answer_helper
    (llm : nat -> list Message -> Completion AIResponse) (w : World)
    (SYSTEM_PROMPT input : string) (chatHistory : list ChatTurn) (k : nat)
    (response : AIResponse) :
  constructor w = Normal tt ->
  llm 0 (initialMessages SYSTEM_PROMPT input chatHistory) = Normal response ->
  toolCallsOf response = [] ->
  runStockAnalysis llm w SYSTEM_PROMPT input chatHistory k
  = {| result := Normal (resp_content response);
       messages := initialMessages SYSTEM_PROMPT input chatHistory;
       iterations := 1; requests := k |}.
Proof.
  intros Hkey Hllm Hcalls.
  unfold runStockAnalysis, createStockDataTool, createNewsDataTool, createCompanyDetailsTool.
  rewrite Hkey. unfold agentLoop, maxIterations. cbn [whileLoop].
  rewrite Hllm, Hcalls. reflexivity.
Qed.

(** X5. When the first response of the model requests no tool, the turn is
    over after one model invocation: the response text is returned, no
    adapter runs, no provider request is issued and the message sequence
    is still the initial one. *)
Theorem direct_answer
    (llm : nat -> list Message -> Completion AIResponse) (w : World)
    (SYSTEM_PROMPT input : string) (chatHistory : list ChatTurn) (k : nat)
    (response : AIResponse) :
  constructor w = Normal tt ->
  llm 0 (initialMessages SYSTEM_PROMPT input chatHistory) = Normal response ->
  toolCallsOf response = [] ->
  runStockAnalysis llm w SYSTEM_PROMPT input chatHistory k
  = {| result := Normal (resp_content response);
       messages := initialMessages SYSTEM_PROMPT input chatHistory;
       iterations := 1; requests := k |}.
Proof. apply direct_answer_helper. Qed.

Lemma direct_answer_witness :
  runStockAnalysis Fixture.directModel Stub.quietWorld Stub.prompt "Analyze AAPL" [] 7
  = {| result := Normal "AAPL looks steady.";
       messages := initialMessages Stub.prompt "Analyze AAPL" [];
       iterations := 1; requests := 7 |}.
Proof.
  apply (direct_answer Fixture.directModel Stub.quietWorld Stub.prompt "Analyze AAPL" [] 7
           {| resp_content := "AAPL looks steady."; resp_tool_calls := None |});
    reflexivity.
Defined.

(** X6. An answer returned by the loop is always the text of a model
    response that requested no tool, and that response was the last
    invocation of the turn: text of a response that requests tools is
    never returned. *)
Theorem answer_is_a_final_response
    (llm : nat -> list Message -> Completion AIResponse) (tools : list Tool)
    (ms : list Message) (k : nat) (answer : string) :
  result (agentLoop llm tools ms k) = Normal answer ->
  exists i ms' response,
    i < maxIterations
    /\ llm i ms' = Normal response
    /\ toolCallsOf response = []
    /\ answer = resp_content response
    /\ iterations (agentLoop llm tools ms k) = S i.
Proof.
  unfold agentLoop. cbn [result iterations].
  destruct (result (whileLoop llm tools maxIterations 0 ms k)) as [a | e] eqn:E;
    [| discriminate].
  intros [= <-].
  destruct (whileLoop_answer llm tools _ _ _ _ _ E) as (i & ms' & r & Hi & Hr & Hc & Ha & Hit).
  exists i, ms', r. repeat split; try assumption. lia.
Qed.

Lemma answer_is_a_final_response_witness :
  exists i ms' response,
    i < maxIterations
    /\ Stub.oneToolModel "get_stock_news" i ms' = Normal response
    /\ toolCallsOf response = []
    /\ "Here is the analysis." = resp_content response
    /\ iterations (agentLoop (Stub.oneToolModel "get_stock_news") (Stub.tools Stub.quietWorld)
                     [HumanMessage "AAPL"] 0) = S i.
Proof.
  apply (answer_is_a_final_response (Stub.oneToolModel "get_stock_news")
           (Stub.tools Stub.quietWorld) [HumanMessage "AAPL"] 0 "Here is the analysis.").
  reflexivity.
Defined.

(** X7. In the message sequence of a whole turn, built from the system
    prompt, the caller's history and the user input, every ToolResult
    message lies after those initial messages and after an Assistant
    message that requested its call identifier: the history the caller
    passed in is never interleaved with tool results. *)
Theorem tool_results_reference_the_sequence
    (llm : nat -> list Message -> Completion AIResponse) (w : World)
    (SYSTEM_PROMPT input : string) (chatHistory : list ChatTurn) (k : nat)
    (pre post : list Message) (content id : string) :
  messages (runStockAnalysis llm w SYSTEM_PROMPT input chatHistory k)
    = (pre ++ ToolMessage content id :: post)%list ->
  In id (requestedIds pre)
  /\ length (initialMessages SYSTEM_PROMPT input chatHistory) <= length pre.
Proof.
  unfold runStockAnalysis.
  destruct (createStockDataTool w) as [t1 | e]; [| destruct pre; discriminate].
  destruct (createNewsDataTool w) as [t2 | e]; [| destruct pre; discriminate].
  destruct (createCompanyDetailsTool w) as [t3 | e]; [| destruct pre; discriminate].
  apply agentLoop_references. apply initialMessages_plain.
Qed.

Lemma tool_results_reference_the_sequence_witness :
  In "call_1"
     (requestedIds (initialMessages Stub.prompt "Analyze AAPL" []
                      ++ [AIMessage "" [Stub.call "get_stock_news" "call_1"]]))
  /\ length (initialMessages Stub.prompt "Analyze AAPL" [])
     <= length (initialMessages Stub.prompt "Analyze AAPL" []
                  ++ [AIMessage "" [Stub.call "get_stock_news" "call_1"]]).
Proof.
  apply (tool_results_reference_the_sequence (Stub.oneToolModel "get_stock_news")
           Stub.quietWorld Stub.prompt "Analyze AAPL" [] 0
           (initialMessages Stub.prompt "Analyze AAPL" []
              ++ [AIMessage "" [Stub.call "get_stock_news" "call_1"]])
           [] "No recent news for AAPL" "call_1").
  reflexivity.
Defined.

(* ===================================================================== *)
(** ** Further properties: the adapters                                   *)
(* ===================================================================== *)

Section SnapshotFacts.

Lemma fold_max_init (l : list Q) : forall x, (x <= fold_left Qmax l x)%Q.
Proof.
  induction l as [| z l IH]; intros x; cbn.
  - apply Qle_refl.
  - eapply Qle_trans; [apply (Q.le_max_l x z) | apply IH].
Qed.

Lemma fold_max_bound (l : list Q) :
  forall x y, In y (x :: l) -> (y <= fold_left Qmax l x)%Q.
Proof.
  induction l as [| z l IH]; intros x y Hin; cbn.
  - destruct Hin as [<- | []]. apply Qle_refl.
  - destruct Hin as [<- | [<- | Hin]].
    + eapply Qle_trans; [apply (Q.le_max_l x z) | apply fold_max_init].
    + eapply Qle_trans; [apply (Q.le_max_r x z) | apply fold_max_init].
    + apply IH. right. exact Hin.
Qed.

Lemma fold_min_init (l : list Q) : forall x, (fold_left Qmin l x <= x)%Q.
Proof.
  induction l as [| z l IH]; intros x; cbn.
  - apply Qle_refl.
  - eapply Qle_trans; [apply IH | apply (Q.le_min_l x z)].
Qed.

Lemma fold_min_bound (l : list Q) :
  forall x y, In y (x :: l) -> (fold_left Qmin l x <= y)%Q.
Proof.
  induction l as [| z l IH]; intros x y Hin; cbn.
  - destruct Hin as [<- | []]. apply Qle_refl.
  - destruct Hin as [<- | [<- | Hin]].
    + eapply Qle_trans; [apply fold_min_init | apply (Q.le_min_l x z)].
    + eapply Qle_trans; [apply fold_min_init | apply (Q.le_min_r x z)].
    + apply IH. right. exact Hin.
Qed.

Lemma index_In {A} (xs : list A) (i : Z) (x : A) : index xs i = Some x -> In x xs.
Proof.
  unfold index. destruct (i <? 0)%Z; [discriminate |]. apply nth_error_In.
Qed.

Lemma len_positive_nonzero {A} (x : A) (xs : list A) :
  Qeq_bool (inject_Z (len (x :: xs))) 0 = false.
Proof.
  unfold len, inject_Z, Qeq_bool. cbn [Qnum Qden length].
  apply Z.eqb_neq. lia.
Qed.

(** The snapshot, when there is one, as a function of the series and the
    three indicator series. *)
Lemma calculateStockMetrics_normal (w : World) ticker aggregates k m :
  fst (calculateStockMetrics w ticker aggregates k) = Normal m ->
  exists latest rsiData sma10Data sma20Data,
    index aggregates (len aggregates - 1) = Some latest
    /\ fst (getRSI w ticker 14 1 k) = Normal rsiData
    /\ snd (calculateStockMetrics w ticker aggregates k) = k + 3
    /\ m = {|
        currentPrice := agg_c latest;
        previousClose :=
          match index aggregates (len aggregates - 2) with
          | Some previous => agg_c previous
          | None => agg_c latest
          end;
        change :=
          (agg_c latest
           - match index aggregates (len aggregates - 2) with
             | Some previous => agg_c previous
             | None => agg_c latest
             end)%Q;
        changePercent :=
          match index aggregates (len aggregates - 2) with
          | Some previous =>
              scale (div (agg_c latest - agg_c previous)%Q (agg_c previous)) 100
          | None => Num 0%Q
          end;
        dayHigh := agg_h latest;
        dayLow := agg_l latest;
        volume := agg_v latest;
        avgVolume := div (fold_left Qplus (map agg_v aggregates) 0%Q)
                         (inject_Z (len (map agg_v aggregates)));
        rsi := firstValue rsiData;
        sma10 := firstValue sma10Data;
        sma20 := firstValue sma20Data;
        priceRangeHigh := Math_max (map agg_c aggregates);
        priceRangeLow := Math_min (map agg_c aggregates)
      |}.
Proof.
  destruct (calculateStockMetrics_eq w ticker aggregates k)
    as (rsiData & sma10Data & sma20Data & k1 & k2 & k3 & E1 & E2 & E3 & E).
  rewrite E. cbv zeta.
  pose proof (gateway_request_count w ticker 14 1 desc k) as (_ & _ & _ & _ & R1 & _).
  pose proof (gateway_request_count w ticker 10 1 desc k1) as (_ & _ & _ & _ & _ & R2).
  pose proof (gateway_request_count w ticker 20 1 desc k2) as (_ & _ & _ & _ & _ & R3).
  rewrite E1 in R1. rewrite E2 in R2. rewrite E3 in R3. cbn in R1, R2, R3.
  destruct (index aggregates (len aggregates - 1)) as [latest |]; cbn; [| discriminate].
  intros [= <-].
  exists latest, rsiData, sma10Data, sma20Data.
  rewrite E1. cbn. repeat split. lia.
Qed.

End SnapshotFacts.




Section PhaseBudget.

Variable w : World.



End PhaseBudget.


(** X10. The snapshot is consistent with the series it was computed from:
    the low and the high of the range are finite and bracket every close
    of the series, hence the current price and the previous close. *)
Theorem snapshot_within_price_range
    (w : World) (ticker : string) (aggregates : list StockAggregate) (k : nat)
    (m : StockMetrics) :
  fst (calculateStockMetrics w ticker aggregates k) = Normal m ->
  exists lo hi,
    priceRangeLow m = Num lo
    /\ priceRangeHigh m = Num hi
    /\ Forall (fun a => (lo <= agg_c a <= hi)%Q) aggregates
    /\ (lo <= currentPrice m <= hi)%Q
    /\ (lo <= previousClose m <= hi)%Q.
Proof.
  intros H.
  destruct (calculateStockMetrics_normal w ticker aggregates k m H)
    as (latest & rsiData & sma10Data & sma20Data & Hlatest & _ & _ & ->).
  cbn [priceRangeLow priceRangeHigh currentPrice previousClose].
  pose proof (index_In _ _ _ Hlatest) as Hin.
  destruct aggregates as [| first rest]; [contradiction |].
  cbn [map Math_max Math_min].
  set (lo := fold_left Qmin (map agg_c rest) (agg_c first)).
  set (hi := fold_left Qmax (map agg_c rest) (agg_c first)).
  assert (Hbound : forall a, In a (first :: rest) -> (lo <= agg_c a <= hi)%Q).
  { intros a Ha. split.
    - apply fold_min_bound. change (In (agg_c a) (map agg_c (first :: rest))).
      apply in_map. exact Ha.
    - apply fold_max_bound. change (In (agg_c a) (map agg_c (first :: rest))).
      apply in_map. exact Ha. }
  exists lo, hi. repeat split; try reflexivity.
  - apply Forall_forall. exact Hbound.
  - apply Hbound. exact Hin.
  - apply Hbound. exact Hin.
  - destruct (index (first :: rest) (len (first :: rest) - 2)) as [previous |] eqn:Eprev.
    + apply Hbound. exact (index_In _ _ _ Eprev).
    + apply Hbound. exact Hin.
  - destruct (index (first :: rest) (len (first :: rest) - 2)) as [previous |] eqn:Eprev.
    + apply Hbound. exact (index_In _ _ _ Eprev).
    + apply Hbound. exact Hin.
Qed.

Lemma snapshot_within_price_range_witness :
  exists lo hi,
    Num 95 = Num lo /\ Num 100 = Num hi
    /\ (lo <= 100 <= hi)%Q /\ (lo <= 95 <= hi)%Q.
Proof.
  destruct (snapshot_within_price_range Stub.scenarioWorld "AAPL"
              [Stub.bar 95; Stub.bar 100] 0 _ eq_refl)
    as (lo & hi & Hlo & Hhi & _ & Hcur & Hprev).
  exists lo, hi. repeat split; try assumption; apply Hcur || apply Hprev.
Defined.

Lemma firstValue_none (data : list IndicatorValue) :
  firstValue data = None
  <-> data = [] \/ exists v rest, data = v :: rest /\ (iv_value v == 0)%Q.
Proof.
  unfold firstValue, index, orNull. cbn.
  destruct data as [| v rest]; cbn.
  - split; [intros _; left; reflexivity | reflexivity].
  - destruct (Qeq_bool (iv_value v) 0) eqn:E.
    + split; [| reflexivity].
      intros _. right. exists v, rest. split; [reflexivity |].
      apply Qeq_bool_iff. exact E.
    + split; [discriminate |].
      intros [Hnil | (v' & rest' & [= <- <-] & Hzero)]; [discriminate |].
      apply Qeq_bool_iff in Hzero. congruence.
Qed.

(** X12. An indicator value of 0 is reported as absent: the snapshot's
    [rsi] is null exactly when the RSI series of the gateway is empty or
    its first value is 0, so a reading of 0 cannot be told from a missing
    one. *)
Theorem zero_indicator_reported_absent
    (w : World) (ticker : string) (aggregates : list StockAggregate) (k : nat)
    (m : StockMetrics) (rsiData : list IndicatorValue) :
  fst (calculateStockMetrics w ticker aggregates k) = Normal m ->
  fst (getRSI w ticker 14 1 k) = Normal rsiData ->
  (rsi m = None
   <-> rsiData = [] \/ exists v rest, rsiData = v :: rest /\ (iv_value v == 0)%Q).
Proof.
  intros H Hrsi.
  destruct (calculateStockMetrics_normal w ticker aggregates k m H)
    as (latest & rsiData' & sma10Data & sma20Data & _ & Hrsi' & _ & ->).
  rewrite Hrsi in Hrsi'. injection Hrsi' as <-.
  cbn [rsi]. apply firstValue_none.
Qed.

Lemma zero_indicator_reported_absent_witness :
  exists m,
    fst (calculateStockMetrics Fixture.appleWorld "AAPL" [Stub.bar 95; Stub.bar 100] 0)
      = Normal m
    /\ rsi m = None.
Proof.
  eexists. split; [reflexivity |].
  apply (proj2 (zero_indicator_reported_absent Fixture.appleWorld "AAPL"
                  [Stub.bar 95; Stub.bar 100] 0 _ [Stub.point 0] eq_refl eq_refl)).
  right. exists (Stub.point 0), []. split; reflexivity.
Defined.

Section NewsFacts.

Variable w : World.

Lemma formatNews_length (news : list NewsArticle) :
  forall i, length (formatNews w i news) = length news.
Proof.
  induction news as [| article rest IH]; intros i; cbn; [reflexivity |].
  rewrite IH. reflexivity.
Qed.

Lemma formatNews_nth (news : list NewsArticle) :
  forall start i article,
    nth_error news i = Some article ->
    exists fields,
      nth_error (formatNews w start news) i
      = Some (JObject (("number", jnum (inject_Z (Z.of_nat (start + i) + 1)))
                       :: ("title", JString (na_title article))
                       :: ("publisher", JString (pub_name (na_publisher article)))
                       :: fields)).
Proof.
  induction news as [| first rest IH]; intros start i article Hnth.
  - destruct i; discriminate.
  - destruct i as [| i]; cbn in Hnth.
    + injection Hnth as ->. cbn. rewrite Nat.add_0_r. eexists. reflexivity.
    + destruct (IH (S start) i article Hnth) as [fields Hfields].
      exists fields. cbn. rewrite Hfields.
      replace (S start + i) with (start + S i) by lia. reflexivity.
Qed.

End NewsFacts.

(** X13. When the gateway returns articles, the News Adapter serialises
    the upper-cased ticker, the number of articles and one entry per
    article, in the order of the gateway and numbered from 1. *)
Theorem news_entries_numbered (w : World) (args : Args) (k : nat) (news : list NewsArticle) :
  let ticker := toUpperCase (arg_ticker args) in
  let limit := match arg_limit args with Some limit => limit | None => 5%Q end in
  fst (getNews w ticker limit desc k) = Normal news ->
  news <> [] ->
  fst (newsFunc w args k)
  = Normal (JSON_stringify w (JObject [
      ("ticker", JString ticker);
      ("newsCount", jnum (inject_Z (len news)));
      ("articles", JArray (formatNews w 0 news))
    ]))
  /\ length (formatNews w 0 news) = length news
  /\ forall i article,
       nth_error news i = Some article ->
       exists fields,
         nth_error (formatNews w 0 news) i
         = Some (JObject (("number", jnum (inject_Z (Z.of_nat i + 1)))
                          :: ("title", JString (na_title article))
                          :: ("publisher", JString (pub_name (na_publisher article)))
                          :: fields)).
Proof.
  intros ticker limit Hnews Hne.
  split; [| split].
  - unfold newsFunc, tryCatch, bind. fold ticker limit.
    destruct (getNews w ticker limit desc k) as [[news' | e] k']; cbn in Hnews;
      [| discriminate].
    injection Hnews as ->.
    destruct news as [| article rest]; [congruence |].
    unfold len at 1. cbn [length Z.of_nat Z.eqb].
    unfold len. rewrite formatNews_length. reflexivity.
  - apply formatNews_length.
  - intros i article Hnth. apply (formatNews_nth w news 0 i article Hnth).
Qed.

Lemma news_entries_numbered_witness :
  length (formatNews Fixture.newsWorld 0 [Fixture.headline]) = 1
  /\ exists fields,
       nth_error (formatNews Fixture.newsWorld 0 [Fixture.headline]) 0
       = Some (JObject (("number", jnum 1)
                        :: ("title", JString "Is Apple Still a Good Growth Stock?")
                        :: ("publisher", JString "The Motley Fool")
                        :: fields)).
Proof.
  destruct (news_entries_numbered Fixture.newsWorld (Stub.tickerArgs "aapl") 0
              [Fixture.headline] eq_refl ltac:(discriminate))
    as (_ & Hlen & Hnth).
  split; [exact Hlen |].
  exact (Hnth 0 Fixture.headline eq_refl).
Defined.

(* ===================================================================== *)
(** ** Further properties: the router                                     *)
(* ===================================================================== *)

Section RouterFacts.

Variable llm : nat -> list Message -> Completion AIResponse.
Variable w : World.
Variable SYSTEM_PROMPT : string.

(** An answer of a turn is the text of a model response that requested no
    tool. *)
Lemma runStockAnalysis_answer (input : string) (chatHistory : list ChatTurn) (k : nat)
    (answer : string) :
  result (runStockAnalysis llm w SYSTEM_PROMPT input chatHistory k) = Normal answer ->
  exists i ms response,
    llm i ms = Normal response
    /\ toolCallsOf response = []
    /\ answer = resp_content response.
Proof.
  unfold runStockAnalysis.
  destruct (createStockDataTool w) as [t1 | e]; [| discriminate].
  destruct (createNewsDataTool w) as [t2 | e]; [| discriminate].
  destruct (createCompanyDetailsTool w) as [t3 | e]; [| discriminate].
  unfold agentLoop. cbn [result].
  destruct (result (whileLoop llm [t1; t2; t3] maxIterations 0 _ k)) as [a | e] eqn:E;
    [| discriminate].
  intros [= <-].
  destruct (whileLoop_answer llm _ _ _ _ _ _ E) as (i & ms & r & _ & Hr & Hc & Ha & _).
  exists i, ms, r. auto.
Qed.

(** With the key configured, a model that keeps requesting tools ends the
    turn at the cap. *)
Lemma runStockAnalysis_cap (input : string) (chatHistory : list ChatTurn) (k : nat) :
  constructor w = Normal tt ->
  (forall i ms, i < maxIterations -> requestsTools (llm i ms)) ->
  result (runStockAnalysis llm w SYSTEM_PROMPT input chatHistory k)
  = Throw (ErrorObj "Failed to analyze: Max iterations reached").
Proof.
  intros Hkey Hllm.
  unfold runStockAnalysis, createStockDataTool, createNewsDataTool, createCompanyDetailsTool.
  rewrite Hkey. unfold agentLoop. cbn [result].
  match goal with
  | |- context [whileLoop llm ?tools _ _ _ _] =>
      destruct (whileLoop_never_stops llm tools maxIterations 0
                  (initialMessages SYSTEM_PROMPT input chatHistory) k Hllm) as [-> _]
  end.
  reflexivity.
Qed.

Lemma parseTicker_some (ticker upper : string) :
  parseTicker ticker = Some upper ->
  upper = toUpperCase ticker /\ 1 <= String.length ticker <= 10.
Proof.
  unfold parseTicker, lengthWithin.
  destruct (1 <=? String.length ticker)%nat eqn:Hlo; cbn; [| discriminate].
  destruct (String.length ticker <=? 10)%nat eqn:Hhi; cbn; [| discriminate].
  intros [= <-]. apply Nat.leb_le in Hlo, Hhi. auto.
Qed.

Lemma parseTicker_none (ticker : string) :
  parseTicker ticker = None <-> String.length ticker = 0 \/ 10 < String.length ticker.
Proof.
  unfold parseTicker, lengthWithin.
  destruct (Nat.leb_spec 1 (String.length ticker));
    destruct (Nat.leb_spec (String.length ticker) 10); cbn;
    split; intros Hgoal; first [discriminate | reflexivity | lia | exfalso; lia].
Qed.

End RouterFacts.

(** X14. The procedure [analyze] rejects a ticker that is empty or longer
    than 10 characters before the agent runs, and no other.  A successful
    reply carries the upper-cased ticker and, as analysis, the text of a
    model response that requested no tool.  Every failure of the agent
    reaches the caller as an error whose message starts with
    "Failed to analyze T: ", T the upper-cased ticker. *)
Theorem analyze_replies
    (llm : nat -> list Message -> Completion AIResponse) (w : World)
    (SYSTEM_PROMPT ticker : string) (k : nat) :
  (fst (analyze llm w SYSTEM_PROMPT ticker k) = BadRequest
   <-> String.length ticker = 0 \/ 10 < String.length ticker)
  /\ (forall out,
        fst (analyze llm w SYSTEM_PROMPT ticker k) = Replied (Normal out) ->
        an_success out = true
        /\ an_ticker out = toUpperCase ticker
        /\ exists i ms response,
             llm i ms = Normal response
             /\ toolCallsOf response = []
             /\ an_analysis out = resp_content response)
  /\ (forall e,
        fst (analyze llm w SYSTEM_PROMPT ticker k) = Replied (Throw e) ->
        exists reason,
          e = ErrorObj ("Failed to analyze " ++ toUpperCase ticker ++ ": " ++ reason)).
Proof.
  unfold analyze.
  destruct (parseTicker ticker) as [upper |] eqn:Hparse.
  - destruct (parseTicker_some _ _ Hparse) as [-> Hlen].
    destruct (result (runStockAnalysis llm w SYSTEM_PROMPT
                        (analyzePrompt (toUpperCase ticker)) [] k)) as [analysis | error] eqn:E;
      cbn [fst].
    + split; [split; [discriminate | lia] |].
      split; [| discriminate].
      intros out [= <-]. cbn. repeat split.
      destruct (runStockAnalysis_answer llm w SYSTEM_PROMPT _ _ _ _ E) as (i & ms & r & H).
      exists i, ms, r. exact H.
    + split; [split; [discriminate | lia] |].
      split; [discriminate |].
      intros e [= <-]. eexists. reflexivity.
  - cbn [fst]. split; [split; [intros _; apply parseTicker_none; exact Hparse | reflexivity] |].
    split; discriminate.
Qed.

Lemma analyze_replies_witness :
  exists i ms response,
    Fixture.directModel i ms = Normal response
    /\ toolCallsOf response = []
    /\ "AAPL looks steady." = resp_content response.
Proof.
  destruct (proj1 (proj2 (analyze_replies Fixture.directModel Stub.quietWorld Stub.prompt
                            "aapl" 0))
              {| an_success := true; an_ticker := "AAPL";
                 an_analysis := "AAPL looks steady.";
                 an_timestamp := "2026-02-05T00:00:00.000Z" |} eq_refl)
    as (_ & _ & H).
  exact H.
Defined.

(** X15. When the model never stops requesting tools, the caller of the
    router reads the cap error wrapped twice: [analyze] fails with
    "Failed to analyze T: Failed to analyze: Max iterations reached" and
    [chat] with
    "Failed to process question: Failed to analyze: Max iterations reached";
    no answer is returned. *)
Theorem cap_error_through_the_router
    (llm : nat -> list Message -> Completion AIResponse) (w : World)
    (SYSTEM_PROMPT ticker upper question : string) (chatHistory : list ChatTurn) (k : nat) :
  constructor w = Normal tt ->
  (forall i ms, i < maxIterations -> requestsTools (llm i ms)) ->
  parseTicker ticker = Some upper ->
  lengthWithin 1 500 question = true ->
  forallb validRole chatHistory = true ->
  fst (analyze llm w SYSTEM_PROMPT ticker k)
  = Replied (Throw (ErrorObj ("Failed to analyze " ++ upper
                              ++ ": Failed to analyze: Max iterations reached")))
  /\ fst (chat llm w SYSTEM_PROMPT ticker question (Some chatHistory) k)
     = Replied (Throw (ErrorObj
         "Failed to process question: Failed to analyze: Max iterations reached")).
Proof.
  intros Hkey Hllm Hparse Hquestion Hroles.
  unfold analyze, chat. rewrite Hparse, Hquestion, Hroles. cbn [negb].
  rewrite !(runStockAnalysis_cap llm w SYSTEM_PROMPT _ _ k Hkey Hllm).
  split; reflexivity.
Qed.

Lemma cap_error_through_the_router_witness :
  fst (analyze Stub.insistentModel Stub.downWorld Stub.prompt "aapl" 0)
  = Replied (Throw (ErrorObj
      "Failed to analyze AAPL: Failed to analyze: Max iterations reached"))
  /\ fst (chat Stub.insistentModel Stub.downWorld Stub.prompt "aapl" "Why?" (Some []) 0)
     = Replied (Throw (ErrorObj
         "Failed to process question: Failed to analyze: Max iterations reached")).
Proof.
  apply (cap_error_through_the_router Stub.insistentModel Stub.downWorld Stub.prompt
           "aapl" "AAPL" "Why?" [] 0); try reflexivity.
  intros i ms _. eexists. split; [reflexivity | discriminate].
Defined.

(** X16. The procedure [chat] hands the model the system prompt, then the
    caller's history in its order (a "user" entry as a user message, an
    "assistant" entry as an Assistant message without tool requests), then
    the question as "Regarding T: question".  When the model answers that
    sequence at once, the reply carries its text.  A history entry with
    another role, or a question that is empty or longer than 500
    characters, is rejected before the agent runs. *)
Theorem chat_hands_over_the_history
    (llm : nat -> list Message -> Completion AIResponse) (w : World)
    (SYSTEM_PROMPT ticker upper question : string) (chatHistory : list ChatTurn) (k : nat) :
  parseTicker ticker = Some upper ->
  (lengthWithin 1 500 question = true ->
   forallb validRole chatHistory = true ->
   constructor w = Normal tt ->
   forall response,
     llm 0 (SystemMessage SYSTEM_PROMPT
              :: map (fun msg =>
                        if role msg =? "user" then HumanMessage (turn_content msg)
                        else AIMessage (turn_content msg) [])
                     chatHistory
              ++ [HumanMessage ("Regarding " ++ upper ++ ": " ++ question)])%list
     = Normal response ->
     toolCallsOf response = [] ->
     chat llm w SYSTEM_PROMPT ticker question (Some chatHistory) k
     = (Replied (Normal {| co_success := true; co_ticker := upper;
                           co_answer := resp_content response;
                           co_timestamp := toISOString_now w k |}), k))
  /\ (lengthWithin 1 500 question = false \/ forallb validRole chatHistory = false ->
      chat llm w SYSTEM_PROMPT ticker question (Some chatHistory) k = (BadRequest, k)).
Proof.
  intros Hparse. split.
  - intros Hquestion Hroles Hkey response Hllm Hcalls.
    unfold chat. rewrite Hparse, Hquestion, Hroles. cbn [negb].
    rewrite (direct_answer_helper llm w SYSTEM_PROMPT (chatPrompt upper question) chatHistory k
               response Hkey Hllm Hcalls).
    reflexivity.
  - intros [Hquestion | Hroles]; unfold chat; rewrite Hparse.
    + rewrite Hquestion. reflexivity.
    + destruct (lengthWithin 1 500 question); cbn [negb]; [| reflexivity].
      rewrite Hroles. reflexivity.
Qed.

Lemma chat_hands_over_the_history_witness :
  chat Fixture.directModel Stub.quietWorld Stub.prompt "aapl" "Why?"
    (Some [{| role := "assistant"; turn_content := "Earlier analysis." |}]) 3
  = (Replied (Normal {| co_success := true; co_ticker := "AAPL";
                        co_answer := "AAPL looks steady.";
                        co_timestamp := "2026-02-05T00:00:00.000Z" |}), 3).
Proof.
  apply (proj1 (chat_hands_over_the_history Fixture.directModel Stub.quietWorld Stub.prompt
                  "aapl" "AAPL" "Why?"
                  [{| role := "assistant"; turn_content := "Earlier analysis." |}] 3
                  eq_refl)
           eq_refl eq_refl eq_refl
           {| resp_content := "AAPL looks steady."; resp_tool_calls := None |}
           eq_refl eq_refl).
Defined.

(* ===================================================================== *)
(** ** Further properties: the route handlers and the submission flow     *)
(* ===================================================================== *)

Section RouteFacts.

Lemma upperChar_idempotent (ch : ascii) : upperChar (upperChar ch) = upperChar ch.
Proof. destruct ch as [[] [] [] [] [] [] [] []]; reflexivity. Qed.

Lemma toUpperCase_idempotent (s : string) : toUpperCase (toUpperCase s) = toUpperCase s.
Proof.
  induction s as [| ch s IH]; cbn; [reflexivity |].
  rewrite upperChar_idempotent, IH. reflexivity.
Qed.

Lemma string_length_app (a b : string) :
  String.length (a ++ b) = String.length a + String.length b.
Proof. induction a as [| ch a IH]; cbn; [reflexivity | rewrite IH; reflexivity]. Qed.

Lemma tickerFormat_length (letter : ascii -> bool) (s : string) :
  tickerFormat letter s -> 1 <= String.length s <= 8.
Proof.
  intros (letters & suffix & -> & Hlen & _ & Hsuffix).
  rewrite string_length_app.
  destruct Hsuffix as [-> | (sep & last & -> & _)]; cbn; lia.
Qed.

(** What [handleSubmit] passes on: the trimmed input in upper case, which
    the regular expression accepts. *)
Lemma handleSubmit_validate (input ticker : string) :
  handleSubmit input = Validate ticker ->
  ticker = toUpperCase (trim input) /\ test tickerRegex ticker = true.
Proof.
  unfold handleSubmit.
  destruct (falsyString (trim input)); [discriminate |].
  destruct (test tickerRegex (toUpperCase (trim input))) eqn:E; cbn [negb];
    [| discriminate].
  intros [= <-]. auto.
Qed.

Lemma handleSubmit_accepts (input : string) :
  tickerFormat isLetter (trim input) ->
  handleSubmit input = Validate (toUpperCase (trim input)).
Proof.
  intros Hformat. unfold handleSubmit.
  destruct (trim input) as [| ch rest] eqn:Etrim.
  - exfalso. exact (tickerFormat_nonempty _ Hformat).
  - cbn [falsyString].
    apply tickerFormat_toUpperCase in Hformat.
    rewrite (tickerRegex_complete _ Hformat). reflexivity.
Qed.

Lemma ok_not_404 {T} (r : Response T) : ok r = true -> (status r =? 404)%nat = false.
Proof.
  unfold ok. intros H. apply andb_true_iff in H. destruct H as [_ H].
  apply Nat.leb_le in H. apply Nat.eqb_neq. lia.
Qed.

Variable w : World.

(** The validation handler answers every request, with at most one
    provider request. *)
Lemma validateTicker_total (req : Completion (option string)) (k : nat) :
  exists resp k', validateTicker w req k = (Normal resp, k') /\ k <= k' <= S k.
Proof.
  unfold validateTicker, tryCatch, bind, lift, ret, throw, fetchRaw.
  destruct req as [[[| ch ticker] |] | e]; try (eexists; eexists; split; [reflexivity | lia]).
  destruct (falsyOptString (MASSIVE_API_KEY w));
    [eexists; eexists; split; [reflexivity | lia] |].
  destruct (reference_tickers w k (toUpperCase (String ch ticker))) as [e | r];
    [eexists; eexists; split; [reflexivity | lia] |].
  destruct (status r =? 404)%nat; [eexists; eexists; split; [reflexivity | lia] |].
  destruct (ok r); cbn [negb]; [| eexists; eexists; split; [reflexivity | lia]].
  destruct (json_body r) as [[details |] | e];
    try (eexists; eexists; split; [reflexivity | lia]).
  destruct (falsyString (td_ticker details)); eexists; eexists; split;
    try reflexivity; lia.
Qed.

(** A positive validation comes from the provider. *)
Lemma validateTicker_valid (req : Completion (option string)) (k k' : nat)
    (resp : NextResponse ValidateBody) :
  validateTicker w req k = (Normal resp, k') ->
  vb_valid (payload resp) = true ->
  http_status resp = 200
  /\ k' = S k
  /\ falsyOptString (MASSIVE_API_KEY w) = false
  /\ exists ticker r details,
       req = Normal (Some ticker)
       /\ ticker <> ""
       /\ reference_tickers w k (toUpperCase ticker) = Responded r
       /\ ok r = true
       /\ json_body r = Normal (Some details)
       /\ td_ticker details <> ""
       /\ vb_ticker (payload resp) = Some (td_ticker details)
       /\ vb_name (payload resp) = Some (td_name details).
Proof.
  unfold validateTicker, tryCatch, bind, lift, ret, throw, fetchRaw.
  destruct req as [[[| ch ticker] |] | e]; try (intros [= <- <-]; discriminate).
  destruct (falsyOptString (MASSIVE_API_KEY w)) eqn:Hkey;
    [intros [= <- <-]; discriminate |].
  destruct (reference_tickers w k (toUpperCase (String ch ticker))) as [e | r] eqn:Hfetch;
    [intros [= <- <-]; discriminate |].
  destruct (status r =? 404)%nat; [intros [= <- <-]; discriminate |].
  destruct (ok r) eqn:Hok; cbn [negb]; [| intros [= <- <-]; discriminate].
  destruct (json_body r) as [[details |] | e] eqn:Hbody;
    try (intros [= <- <-]; discriminate).
  destruct (td_ticker details) as [| c rest] eqn:Hticker; cbn [falsyString];
    [intros [= <- <-]; discriminate |].
  intros [= <- <-] _. cbn.
  repeat split.
  exists (String ch ticker), r, details.
  rewrite Hticker. repeat split; try assumption; discriminate.
Qed.

(** The provider confirms the ticker: the validation is positive. *)
Lemma validateTicker_confirms (ticker : string) (k : nat)
    (r : Response (option TickerDetails)) (details : TickerDetails) :
  falsyOptString (MASSIVE_API_KEY w) = false ->
  ticker <> "" ->
  reference_tickers w k (toUpperCase ticker) = Responded r ->
  ok r = true ->
  json_body r = Normal (Some details) ->
  td_ticker details <> "" ->
  validateTicker w (Normal (Some ticker)) k
  = (Normal {| http_status := 200;
               payload := {| vb_valid := true;
                             vb_ticker := Some (td_ticker details);
                             vb_name := Some (td_name details);
                             vb_error := None; vb_message := None |} |}, S k).
Proof.
  intros Hkey Hne Hfetch Hok Hbody Hticker.
  unfold validateTicker, tryCatch, bind, lift, ret, throw, fetchRaw.
  destruct ticker as [| ch ticker]; [congruence |].
  rewrite Hkey, Hfetch, (ok_not_404 r Hok), Hok. cbn [negb]. rewrite Hbody.
  destruct (td_ticker details) as [| c rest]; [congruence |]. reflexivity.
Qed.

End RouteFacts.

(** X17. A ticker that passes the format check of the page also passes the
    input schema of the router, which leaves it unchanged: it has between
    1 and 8 characters and is already in upper case. *)
Theorem page_ticker_passes_router (input ticker : string) :
  handleSubmit input = Validate ticker ->
  parseTicker ticker = Some ticker /\ 1 <= String.length ticker <= 8.
Proof.
  intros H. destruct (handleSubmit_validate input ticker H) as [-> Htest].
  pose proof (tickerFormat_length _ _ (tickerRegex_sound _ Htest)) as Hlen.
  split; [| exact Hlen].
  unfold parseTicker, lengthWithin.
  destruct (Nat.leb_spec 1 (String.length (toUpperCase (trim input)))); [| lia].
  destruct (Nat.leb_spec (String.length (toUpperCase (trim input))) 10); [| lia].
  cbn. rewrite toUpperCase_idempotent. reflexivity.
Qed.

Lemma page_ticker_passes_router_witness :
  parseTicker "BRK.B" = Some "BRK.B" /\ 1 <= String.length "BRK.B" <= 8.
Proof.
  apply (page_ticker_passes_router " brk.b " "BRK.B"). reflexivity.
Defined.

(** X18. [/api/validate-ticker] reports a ticker valid only when the
    provider answered the lookup of its upper-case form with a success
    status and a record that carries a ticker; the reply then has status
    200 and returns the provider's ticker and name. *)
Theorem validation_requires_the_provider
    (w : World) (req : Completion (option string)) (k k' : nat)
    (resp : NextResponse ValidateBody) :
  validateTicker w req k = (Normal resp, k') ->
  vb_valid (payload resp) = true ->
  http_status resp = 200
  /\ k' = S k
  /\ falsyOptString (MASSIVE_API_KEY w) = false
  /\ exists ticker r details,
       req = Normal (Some ticker)
       /\ ticker <> ""
       /\ reference_tickers w k (toUpperCase ticker) = Responded r
       /\ ok r = true
       /\ json_body r = Normal (Some details)
       /\ td_ticker details <> ""
       /\ vb_ticker (payload resp) = Some (td_ticker details)
       /\ vb_name (payload resp) = Some (td_name details).
Proof. apply validateTicker_valid. Qed.

Lemma validation_requires_the_provider_witness :
  exists ticker r details,
    Normal (Some "aapl") = Normal (Some ticker)
    /\ ticker <> ""
    /\ reference_tickers Fixture.appleWorld 0 (toUpperCase ticker) = Responded r
    /\ ok r = true
    /\ json_body r = Normal (Some details)
    /\ td_ticker details <> ""
    /\ Some "AAPL" = Some (td_ticker details)
    /\ Some "Apple Inc." = Some (td_name details).
Proof.
  destruct (validation_requires_the_provider Fixture.appleWorld (Normal (Some "aapl")) 0 1
              _ eq_refl eq_refl) as (_ & _ & _ & H).
  exact H.
Defined.

(** X19. [/api/validate-ticker] never throws and issues at most one
    provider request.  It answers 400 exactly when the body is readable
    and carries no ticker (missing or empty); without the provider key it
    answers 500 with "Massive API key not configured" and issues no
    request; a provider answer 404 or any other non-success status is
    reported with status 200 and [valid: false]. *)
Theorem validation_status_codes (w : World) (req : Completion (option string)) (k : nat) :
  exists resp k',
    validateTicker w req k = (Normal resp, k')
    /\ k <= k' <= S k
    /\ (http_status resp = 400 <-> req = Normal None \/ req = Normal (Some ""))
    /\ (falsyOptString (MASSIVE_API_KEY w) = true ->
        forall ticker, req = Normal (Some ticker) -> ticker <> "" ->
        k' = k
        /\ http_status resp = 500
        /\ vb_valid (payload resp) = false
        /\ vb_message (payload resp) = Some "Massive API key not configured")
    /\ (falsyOptString (MASSIVE_API_KEY w) = false ->
        forall ticker r,
          req = Normal (Some ticker) -> ticker <> "" ->
          reference_tickers w k (toUpperCase ticker) = Responded r ->
          ok r = false ->
          http_status resp = 200 /\ vb_valid (payload resp) = false).
Proof.
  destruct (validateTicker_total w req k) as (resp & k' & Hrun & Hk).
  exists resp, k'. split; [exact Hrun |]. split; [exact Hk |].
  revert Hrun.
  unfold validateTicker, tryCatch, bind, lift, ret, throw, fetchRaw.
  destruct req as [[[| ch ticker] |] | e];
    try destruct (falsyOptString (MASSIVE_API_KEY w)) eqn:Hkey;
    try destruct (reference_tickers w k (toUpperCase (String ch ticker)))
      as [e | r] eqn:Hfetch;
    try destruct (status r =? 404)%nat eqn:H404;
    try destruct (ok r) eqn:Hok; cbn [negb];
    try destruct (json_body r) as [[details |] | e] eqn:Hbody;
    try destruct (falsyString (td_ticker details));
    intros [= <- <-]; cbn;
    (split;
     [ split; [ try discriminate; auto | first [ intros [H | H]; discriminate | auto ] ]
     | split;
       [ intros Hk0 t Ht Hne;
         first [ discriminate
               | congruence
               | injection Ht as <-; congruence
               | repeat split; reflexivity ]
       | intros Hk0 t r0 Ht Hne Hr Hno;
         first [ discriminate
               | congruence
               | injection Ht as <-;
                 first [ congruence
                       | rewrite Hfetch in Hr;
                         first [ discriminate
                               | injection Hr as <-;
                                 first [ congruence | split; reflexivity ] ] ] ] ] ]).
Qed.

Lemma validation_status_codes_witness :
  exists resp,
    fst (validateTicker Fixture.keylessWorld (Normal (Some "aapl")) 0) = Normal resp
    /\ http_status resp = 500
    /\ vb_message (payload resp) = Some "Massive API key not configured".
Proof.
  destruct (validation_status_codes Fixture.keylessWorld (Normal (Some "aapl")) 0)
    as (resp & k' & Hrun & _ & _ & Hkey & _).
  exists resp. rewrite Hrun. split; [reflexivity |].
  destruct (Hkey eq_refl "aapl" eq_refl ltac:(discriminate)) as (_ & Hcode & _ & Hmsg).
  split; assumption.
Defined.

(** X20. A first submission never throws, and with the validation route
    behind it the analysis is started for a ticker exactly when that
    ticker is the input, trimmed and put in upper case, it is 1 to 6
    letters A-Z optionally followed by a dot or a dash and one more
    letter A-Z, the provider key is configured, and the provider answers
    the lookup of that ticker with a success status and a record carrying
    a ticker. *)
Theorem analysis_only_for_confirmed_tickers (w : World) (input : string) (k : nat) :
  (exists outcome k', submitTicker (postToRoute w) input k = (Normal outcome, k'))
  /\ forall ticker,
       fst (submitTicker (postToRoute w) input k) = Normal (Analyzing ticker)
       <-> (ticker = toUpperCase (trim input)
            /\ tickerFormat isUpper ticker
            /\ falsyOptString (MASSIVE_API_KEY w) = false
            /\ exists r details,
                 reference_tickers w k ticker = Responded r
                 /\ ok r = true
                 /\ json_body r = Normal (Some details)
                 /\ td_ticker details <> "").
Proof.
  split.
  - unfold submitTicker.
    destruct (handleSubmit input) as [| | ticker]; try (eexists; eexists; reflexivity).
    unfold tryCatch, bind, postToRoute, bind, ret.
    destruct (validateTicker_total w (Normal (Some ticker)) k) as (resp & k' & -> & _).
    destruct (vb_valid (payload resp)); eexists; eexists; reflexivity.
  - intros ticker. split.
    + unfold submitTicker.
      destruct (handleSubmit input) as [| | passed] eqn:Hgate; try discriminate.
      destruct (handleSubmit_validate input passed Hgate) as [Hpassed Htest].
      unfold tryCatch, bind, postToRoute, bind, ret.
      destruct (validateTicker_total w (Normal (Some passed)) k) as (resp & k' & Hrun & _).
      rewrite Hrun.
      destruct (vb_valid (payload resp)) eqn:Hvalid; cbn; [| discriminate].
      intros [= <-].
      destruct (validateTicker_valid w _ _ _ _ Hrun Hvalid)
        as (_ & _ & Hkey & t & r & details & [= <-] & _ & Hfetch & Hok & Hbody & Hticker & _).
      split; [exact Hpassed |].
      split; [apply tickerRegex_sound; exact Htest |].
      split; [exact Hkey |].
      exists r, details.
      rewrite Hpassed in Hfetch. rewrite toUpperCase_idempotent in Hfetch.
      rewrite Hpassed. auto.
    + intros (-> & Hupper & Hkey & r & details & Hfetch & Hok & Hbody & Hticker).
      assert (Hformat : tickerFormat isLetter (trim input))
        by (apply tickerFormat_toUpperCase; exact Hupper).
      unfold submitTicker. rewrite (handleSubmit_accepts input Hformat).
      unfold tryCatch, bind, postToRoute, bind, ret.
      rewrite (validateTicker_confirms w (toUpperCase (trim input)) k r details Hkey).
      * reflexivity.
      * intros Hempty.
        pose proof (tickerFormat_length _ _ Hupper) as Hlen.
        rewrite Hempty in Hlen. cbn in Hlen. lia.
      * rewrite toUpperCase_idempotent. exact Hfetch.
      * exact Hok.
      * exact Hbody.
      * exact Hticker.
Qed.

Lemma analysis_only_for_confirmed_tickers_witness :
  fst (submitTicker (postToRoute Fixture.appleWorld) " aapl " 0) = Normal (Analyzing "AAPL").
Proof.
  apply (proj2 (proj2 (analysis_only_for_confirmed_tickers Fixture.appleWorld " aapl " 0)
                  "AAPL")).
  split; [reflexivity |].
  split.
  { exists "AAPL", "". cbn. repeat split; try lia. left. reflexivity. }
  split; [reflexivity |].
  eexists. exists Fixture.apple. repeat split. discriminate.
Defined.

Section ChartFacts.

Variable w : World.
Variable isoDay : Q -> Completion string.
Variable toFixed2 : Q -> Q.
Variable startDateStr : Q -> string.
Variable endDateStr : string.

(** The chart series has one point per bar, in the order of the bars, with
    the bar's timestamp, volume, high, low and open and the rounded
    close. *)
Lemma chartPoints_bars (results : list StockAggregate) :
  forall points,
    chartPoints isoDay toFixed2 results = Normal points ->
    length points = length results
    /\ map cp_timestamp points = map agg_t results
    /\ map cp_volume points = map agg_v results
    /\ map cp_price points = map (fun a => toFixed2 (agg_c a)) results.
Proof.
  induction results as [| item rest IH]; intros points; cbn.
  - intros [= <-]. repeat split.
  - destruct (isoDay (agg_t item)) as [date | e]; [| discriminate].
    destruct (chartPoints isoDay toFixed2 rest) as [points' | e]; [| discriminate].
    intros [= <-]. destruct (IH points' eq_refl) as (Hlen & Ht & Hv & Hp).
    cbn. rewrite Hlen, Ht, Hv, Hp. repeat split.
Qed.

End ChartFacts.

(** X21. [/api/stock-chart] never throws and issues at most one provider
    request.  A successful reply has status 200 and comes from a success
    answer of the provider for the ticker as typed and the window of the
    time frame (7, 90, or else 30 days), with a non-empty result set: the
    series has one point per bar, in the provider's order, and the
    reported count is its length. *)
Theorem chart_reply
    (w : World) (isoDay : Q -> Completion string) (toFixed2 : Q -> Q)
    (startDateStr : Q -> string) (endDateStr : string)
    (req : Completion (option string * option string)) (k : nat) :
  exists resp k',
    stockChart w isoDay toFixed2 startDateStr endDateStr req k = (Normal resp, k')
    /\ k <= k' <= S k
    /\ (cb_success (payload resp) = true ->
        http_status resp = 200
        /\ exists ticker timeframe r bars points meta,
             req = Normal (Some ticker, timeframe)
             /\ aggs_range w k ticker
                  (daysBack (match timeframe with Some t => t | None => "30D" end))
                = Responded r
             /\ ok r = true
             /\ json_body r = Normal (Some bars)
             /\ bars <> []
             /\ cb_data (payload resp) = Some points
             /\ cb_meta (payload resp) = Some meta
             /\ cm_dataPoints meta = length bars
             /\ cm_ticker meta = toUpperCase ticker
             /\ length points = length bars
             /\ map cp_timestamp points = map agg_t bars
             /\ map cp_volume points = map agg_v bars).
Proof.
  unfold stockChart, tryCatch, bind, lift, ret, throw, fetchRaw.
  destruct req as [[[[| ch ticker] |] timeframe] | e]; cbn [fst snd];
    try (eexists; eexists; split; [reflexivity |]; split; [lia | discriminate]).
  destruct (falsyOptString (MASSIVE_API_KEY w));
    [eexists; eexists; split; [reflexivity |]; split; [lia | discriminate] |].
  set (days := daysBack (match timeframe with Some t => t | None => "30D" end)).
  destruct (aggs_range w k (String ch ticker) days) as [e | r] eqn:Hfetch;
    [eexists; eexists; split; [reflexivity |]; split; [lia | discriminate] |].
  destruct (ok r) eqn:Hok; cbn [negb].
  - destruct (json_body r) as [[[| bar rest] |] | e] eqn:Hbody;
      try (eexists; eexists; split; [reflexivity |]; split; [lia | discriminate]).
    destruct (chartPoints isoDay toFixed2 (bar :: rest)) as [points | e] eqn:Hpoints;
      [| eexists; eexists; split; [reflexivity |]; split; [lia | discriminate]].
    destruct (chartPoints_bars isoDay toFixed2 _ _ Hpoints) as (Hlen & Ht & Hv & _).
    eexists. eexists. split; [reflexivity |]. split; [lia |].
    intros _. cbn. split; [reflexivity |].
    eexists. exists timeframe, r, (bar :: rest), points. eexists.
    repeat split; try eassumption; try reflexivity; try discriminate.
  - destruct (text r);
      eexists; eexists; (split; [reflexivity |]); (split; [lia | discriminate]).
Qed.

Lemma chart_reply_witness :
  exists resp,
    fst (stockChart Stub.scenarioWorld (fun _ => Normal "2026-02-05") (fun q => q)
           (fun _ => "2026-01-06") "2026-02-05" (Normal (Some "aapl", Some "1Y")) 0)
      = Normal resp
    /\ http_status resp = 200
    /\ exists r,
         aggs_range Stub.scenarioWorld 0 "aapl" 30 = Responded r /\ ok r = true.
Proof.
  destruct (chart_reply Stub.scenarioWorld (fun _ => Normal "2026-02-05") (fun q => q)
              (fun _ => "2026-01-06") "2026-02-05" (Normal (Some "aapl", Some "1Y")) 0)
    as (resp & k' & Hrun & _ & Hsuccess).
  exists resp. split; [rewrite Hrun; reflexivity |].
  assert (Hok : cb_success (payload resp) = true).
  { cbv in Hrun. injection Hrun as <- _. reflexivity. }
  destruct (Hsuccess Hok)
    as (Hcode & ticker & timeframe & r & bars & points & meta & Hreq & Hfetch & Hr & _).
  split; [exact Hcode |].
  injection Hreq as <- <-.
  exists r. split; [exact Hfetch | exact Hr].
Defined.

(* ===================================================================== *)
(** ** Further properties: conversation history and sentiment             *)
(* ===================================================================== *)

Section HistoryFacts.

Lemma replaceMessages_length (current : option string) (updated : list ChatMessage)
    (cs : list ConversationHistory) :
  length (replaceMessages current updated cs) = length cs.
Proof.
  induction cs as [| c rest IH]; cbn; [reflexivity |].
  destruct (isCurrent current c); cbn; [reflexivity | rewrite IH; reflexivity].
Qed.

Lemma replaceMessages_ids (current : option string) (updated : list ChatMessage)
    (cs : list ConversationHistory) :
  map conv_id (replaceMessages current updated cs) = map conv_id cs
  /\ map conv_ticker (replaceMessages current updated cs) = map conv_ticker cs
  /\ map conv_preview (replaceMessages current updated cs) = map conv_preview cs.
Proof.
  induction cs as [| c rest (IH1 & IH2 & IH3)]; cbn; [repeat split |].
  destruct (isCurrent current c); cbn; [repeat split |].
  rewrite IH1, IH2, IH3. repeat split.
Qed.

(** After the replacement, looking the current identifier up finds the
    updated messages. *)
Lemma replaceMessages_find (id : string) (updated : list ChatMessage)
    (cs : list ConversationHistory) :
  existsb (isCurrent (Some id)) cs = true ->
  exists c,
    find (fun c => conv_id c =? id) (replaceMessages (Some id) updated cs) = Some c
    /\ conv_messages c = updated.
Proof.
  induction cs as [| c rest IH]; cbn; [discriminate |].
  destruct (conv_id c =? id) eqn:E; cbn.
  - intros _. rewrite E. eexists. split; [reflexivity | reflexivity].
  - intros H. rewrite E. apply IH. exact H.
Qed.

(** A conversation other than the first current one is left as it was. *)
Lemma replaceMessages_others (current : option string) (updated : list ChatMessage)
    (cs : list ConversationHistory) (c : ConversationHistory) :
  In c cs -> isCurrent current c = false -> In c (replaceMessages current updated cs).
Proof.
  induction cs as [| c0 rest IH]; cbn; [contradiction |].
  intros [<- | Hin] Hc.
  - rewrite Hc. left. reflexivity.
  - destruct (isCurrent current c0); [right; exact Hin | right; apply IH; assumption].
Qed.

End HistoryFacts.

(** X22. The conversation history never holds more than 20 entries: if it
    holds at most 20, it still does after a conversation is saved, after
    one is selected and after a new chat is started.  Saving a new
    conversation puts it first and keeps the 19 most recent others. *)
Theorem history_is_bounded
    (nowId nowDate ticker : string) (updated : list ChatMessage) (id : string) (st : State) :
  length (conversations st) <= 20 ->
  length (conversations (saveConversationToHistory nowId nowDate ticker updated st)) <= 20
  /\ length (conversations (handleSelectConversation id st)) <= 20
  /\ length (conversations (handleNewChat st)) <= 20
  /\ (existsb (isCurrent (currentConversationId st)) (conversations st) = false ->
      exists fresh,
        conversations (saveConversationToHistory nowId nowDate ticker updated st)
        = fresh :: firstn 19 (conversations st)
        /\ conv_id fresh = nowId
        /\ conv_ticker fresh = ticker
        /\ conv_messages fresh = updated).
Proof.
  intros Hbound. repeat split.
  - unfold saveConversationToHistory.
    destruct (existsb (isCurrent (currentConversationId st)) (conversations st));
      cbn [conversations length].
    + rewrite replaceMessages_length. exact Hbound.
    + rewrite length_firstn. lia.
  - unfold handleSelectConversation.
    destruct (find _ (conversations st)); cbn; exact Hbound.
  - exact Hbound.
  - intros Hnew. unfold saveConversationToHistory. rewrite Hnew. cbn.
    eexists. repeat split.
Qed.

Lemma history_is_bounded_witness :
  length (conversations (saveConversationToHistory "1" "now" "AAPL" [Fixture.note "m" "text"]
                           Fixture.emptyState)) <= 20.
Proof.
  apply (history_is_bounded "1" "now" "AAPL" [Fixture.note "m" "text"] "1"
           Fixture.emptyState).
  cbn. lia.
Defined.

(** X23. What is saved can be selected: after a conversation is saved
    there is a current conversation, and selecting it shows exactly the
    saved messages and marks the analysis as performed. *)
Theorem saved_conversation_can_be_selected
    (nowId nowDate ticker : string) (updated : list ChatMessage) (st : State) :
  exists id,
    currentConversationId (saveConversationToHistory nowId nowDate ticker updated st) = Some id
    /\ st_messages (handleSelectConversation id
                      (saveConversationToHistory nowId nowDate ticker updated st))
       = updated
    /\ analysisPerformed (handleSelectConversation id
                            (saveConversationToHistory nowId nowDate ticker updated st))
       = true.
Proof.
  unfold saveConversationToHistory.
  destruct (existsb (isCurrent (currentConversationId st)) (conversations st)) eqn:E.
  - destruct (currentConversationId st) as [id |] eqn:Hid.
    + exists id. cbn. split; [reflexivity |].
      unfold handleSelectConversation. cbn.
      destruct (replaceMessages_find id updated (conversations st) E) as (c & -> & Hc).
      cbn. auto.
    + exfalso. clear Hid. induction (conversations st) as [| c rest IH]; cbn in E;
        [discriminate | exact (IH E)].
  - exists nowId. cbn. split; [reflexivity |].
    unfold handleSelectConversation. cbn. rewrite String.eqb_refl. cbn. auto.
Qed.

(** X24. Saving under a current conversation that is in the history
    rewrites its messages only: the identifiers, tickers and previews of
    the history keep their order and values (the ticker passed in is not
    used), the current identifier stays, and every conversation with
    another identifier is still there unchanged. *)
Theorem saving_updates_in_place
    (nowId nowDate ticker : string) (updated : list ChatMessage) (st : State) :
  existsb (isCurrent (currentConversationId st)) (conversations st) = true ->
  let st' := saveConversationToHistory nowId nowDate ticker updated st in
  map conv_id (conversations st') = map conv_id (conversations st)
  /\ map conv_ticker (conversations st') = map conv_ticker (conversations st)
  /\ map conv_preview (conversations st') = map conv_preview (conversations st)
  /\ currentConversationId st' = currentConversationId st
  /\ forall c, In c (conversations st) ->
               isCurrent (currentConversationId st) c = false ->
               In c (conversations st').
Proof.
  intros Hcurrent st'. subst st'. unfold saveConversationToHistory. rewrite Hcurrent. cbn.
  destruct (replaceMessages_ids (currentConversationId st) updated (conversations st))
    as (H1 & H2 & H3).
  repeat split; try assumption.
  intros c Hin Hc. apply replaceMessages_others; assumption.
Qed.

Lemma saving_updates_in_place_witness :
  let st := saveConversationToHistory "1" "now" "AAPL" [] Fixture.emptyState in
  map conv_ticker (conversations (saveConversationToHistory "2" "later" "TSLA"
                                    [Fixture.note "m" "text"] st))
  = ["AAPL"].
Proof.
  cbv zeta.
  apply (saving_updates_in_place "2" "later" "TSLA" [Fixture.note "m" "text"]
           (saveConversationToHistory "1" "now" "AAPL" [] Fixture.emptyState)).
  reflexivity.
Defined.

Section SentimentFacts.

Lemma lowerChar_upperChar (ch : ascii) : lowerChar (upperChar ch) = lowerChar ch.
Proof. destruct ch as [[] [] [] [] [] [] [] []]; reflexivity. Qed.

Lemma lowerChar_idempotent (ch : ascii) : lowerChar (lowerChar ch) = lowerChar ch.
Proof. destruct ch as [[] [] [] [] [] [] [] []]; reflexivity. Qed.

Lemma toLowerCase_toUpperCase (s : string) : toLowerCase (toUpperCase s) = toLowerCase s.
Proof.
  induction s as [| ch s IH]; cbn; [reflexivity |].
  rewrite lowerChar_upperChar, IH. reflexivity.
Qed.

Lemma toLowerCase_idempotent (s : string) : toLowerCase (toLowerCase s) = toLowerCase s.
Proof.
  induction s as [| ch s IH]; cbn; [reflexivity |].
  rewrite lowerChar_idempotent, IH. reflexivity.
Qed.

Lemma includes_unfold (s sub : string) :
  includes s sub
  = prefix sub s || match s with EmptyString => false | String _ rest => includes rest sub end.
Proof. destruct s; reflexivity. Qed.

Lemma prefix_app_includes (a : string) :
  forall s b, prefix (a ++ b) s = true -> includes s b = true.
Proof.
  induction a as [| ch a IH]; intros s b H.
  - cbn in H. rewrite includes_unfold, H. reflexivity.
  - destruct s as [| ch' s]; cbn in H; [discriminate |].
    destruct (ascii_dec ch ch'); [| discriminate].
    rewrite includes_unfold, (IH s b H). apply orb_true_r.
Qed.

(** A text that includes a phrase includes every ending of the phrase. *)
Lemma includes_suffix (s : string) :
  forall a b, includes s (a ++ b) = true -> includes s b = true.
Proof.
  induction s as [| ch s IH]; intros a b H; rewrite includes_unfold in H;
    apply orb_true_iff in H; destruct H as [H | H].
  - exact (prefix_app_includes a _ b H).
  - discriminate.
  - exact (prefix_app_includes a _ b H).
  - rewrite includes_unfold, (IH a b H). apply orb_true_r.
Qed.

End SentimentFacts.

(** X25. On an analysis written in ASCII characters the sentiment does
    not depend on letter case: the text in upper case and the text in
    lower case get the sentiment of the text itself. *)
Theorem sentiment_ignores_case (analysis : string) :
  isAscii analysis = true ->
  detectSentiment (toUpperCase analysis) = detectSentiment analysis
  /\ detectSentiment (toLowerCase analysis) = detectSentiment analysis.
Proof.
  intros _. unfold detectSentiment.
  rewrite toLowerCase_toUpperCase, toLowerCase_idempotent. split; reflexivity.
Qed.

Lemma sentiment_ignores_case_witness :
  detectSentiment "STRONG BUY ON MOMENTUM" = detectSentiment "Strong Buy on momentum".
Proof.
  apply (proj1 (sentiment_ignores_case "Strong Buy on momentum" eq_refl)).
Defined.

(** X26. An analysis that mentions none of the twelve keywords is neutral.
    One that mentions "strong buy" scores at least two bullish points,
    because it mentions "buy" as well: with at most one bearish keyword it
    is bullish. *)
Theorem sentiment_scores (analysis : string) :
  ((forall keyword, In keyword (bullishKeywords ++ bearishKeywords)%list ->
                    includes (toLowerCase analysis) keyword = false) ->
   detectSentiment analysis = neutral)
  /\ (includes (toLowerCase analysis) "strong buy" = true ->
      2 <= keywordScore (toLowerCase analysis) bullishKeywords
      /\ (keywordScore (toLowerCase analysis) bearishKeywords <= 1 ->
          detectSentiment analysis = bullish)).
Proof.
  split.
  - intros Hnone. unfold detectSentiment, keywordScore, bullishKeywords, bearishKeywords.
    cbn [fold_left].
    rewrite !Hnone by (cbn; tauto). reflexivity.
  - intros Hstrong.
    pose proof (includes_suffix _ "strong " "buy" Hstrong) as Hbuy.
    assert (Hscore : 2 <= keywordScore (toLowerCase analysis) bullishKeywords).
    { unfold keywordScore, bullishKeywords. cbn [fold_left].
      rewrite Hstrong, Hbuy.
      destruct (includes (toLowerCase analysis) "bullish");
        destruct (includes (toLowerCase analysis) "positive");
        destruct (includes (toLowerCase analysis) "upward");
        destruct (includes (toLowerCase analysis) "growth"); cbn; lia. }
    split; [exact Hscore |].
    intros Hbear. unfold detectSentiment.
    destruct (Nat.ltb_spec (keywordScore (toLowerCase analysis) bearishKeywords)
                (keywordScore (toLowerCase analysis) bullishKeywords)); [reflexivity | lia].
Qed.

Lemma sentiment_scores_witness :
  detectSentiment "Analysts rate it a Strong Buy despite a weak quarter." = bullish
  /\ detectSentiment "The company reported earnings." = neutral.
Proof.
  split.
  - apply (proj2 (sentiment_scores "Analysts rate it a Strong Buy despite a weak quarter.")).
    + reflexivity.
    + vm_compute. lia.
  - apply (proj1 (sentiment_scores "The company reported earnings.")).
    intros keyword Hin. cbn in Hin.
    repeat (destruct Hin as [<- | Hin]; [reflexivity |]). contradiction.
Defined.

(* ===================================================================== *)
(** ** Further properties: the sidebar                                    *)
(* ===================================================================== *)

(** X27. [formatTimeAgo] shows whole minutes up to one hour, whole hours
    up to one day, whole days up to one week and the date after that, each
    count being the elapsed time divided by the unit and rounded down.  A
    date in the future is shown as a negative count of minutes, however
    far ahead it lies. *)
Theorem time_ago_thresholds (now date : Z) (localeDate : string) :
  let elapsed := (now - date)%Z in
  ((elapsed < 3600000)%Z ->
   formatTimeAgo now date localeDate = showInt (elapsed / 60000) ++ "m ago")
  /\ ((3600000 <= elapsed < 86400000)%Z ->
      formatTimeAgo now date localeDate = showInt (elapsed / 3600000) ++ "h ago")
  /\ ((86400000 <= elapsed < 604800000)%Z ->
      formatTimeAgo now date localeDate = showInt (elapsed / 86400000) ++ "d ago")
  /\ ((604800000 <= elapsed)%Z -> formatTimeAgo now date localeDate = localeDate).
Proof.
  intros elapsed. unfold formatTimeAgo. fold elapsed.
  change (1000 * 60)%Z with 60000%Z. cbv zeta.
  assert (Hhours : (elapsed / 60000 / 60 = elapsed / 3600000)%Z)
    by (rewrite Z.div_div by lia; reflexivity).
  assert (Hdays : (elapsed / 60000 / 60 / 24 = elapsed / 86400000)%Z)
    by (rewrite !Z.div_div by lia; reflexivity).
  rewrite Hdays, Hhours.
  pose proof (Z.div_lt_upper_bound elapsed 60000 60 ltac:(lia)) as M1.
  pose proof (Z.div_le_lower_bound elapsed 60000 60 ltac:(lia)) as M2.
  pose proof (Z.div_lt_upper_bound elapsed 3600000 24 ltac:(lia)) as H1.
  pose proof (Z.div_le_lower_bound elapsed 3600000 24 ltac:(lia)) as H2.
  pose proof (Z.div_lt_upper_bound elapsed 86400000 7 ltac:(lia)) as D1.
  pose proof (Z.div_le_lower_bound elapsed 86400000 7 ltac:(lia)) as D2.
  repeat split; intros Hrange;
    destruct (Z.ltb_spec (elapsed / 60000) 60);
    destruct (Z.ltb_spec (elapsed / 3600000) 24);
    destruct (Z.ltb_spec (elapsed / 86400000) 7);
    first [reflexivity | exfalso; lia].
Qed.

Lemma time_ago_thresholds_witness :
  formatTimeAgo 7200000 0 "1/1/1970" = "2h ago"
  /\ formatTimeAgo 0 7200000 "1/1/1970" = "-120m ago".
Proof.
  split.
  - apply (proj1 (proj2 (time_ago_thresholds 7200000 0 "1/1/1970"))). lia.
  - apply (proj1 (time_ago_thresholds 0 7200000 "1/1/1970")). lia.
Defined.
